(** * json-logger-server: the Fitbit dashboard callback and the logging endpoint

    A shallow embedding of [src/app.py] (the Dash callback [fetch_fitbit_data])
    and of [src/main.py] (the FastAPI endpoint [log_data]).

    Python values that come out of a JSON parser are modelled by [json];
    numbers are the JSON integers (Python [int], unbounded), strings are
    sequences of code points below 256.  Every Python exception the code can
    raise is a value of [exn]; the outbound HTTP calls and the lines printed
    are recorded as a list of [event]s. *)

From Stdlib Require Import ZArith String Ascii List Lia Permutation.
From stdpp Require Import base list strings pretty.
Import ListNotations.
Local Open Scope string_scope.
Local Open Scope Z_scope.
Local Open Scope list_scope.

(** ** Parsed JSON values *)

Module Py.

Unset Elimination Schemes.
Inductive json : Type :=
| JNull
| JBool (b : bool)
| JInt (z : Z)
| JStr (s : string)
| JList (l : list json)
| JObj (kvs : list (string * json)).
Set Elimination Schemes.


(** ** Exceptions and results *)

Inductive exn : Type :=
| Raised (msg : string)          (* raise Exception(msg) *)
| KeyError (k : string)          (* d[k] on a dict without k *)
| TypeError                      (* subscript, iteration, in, hash on a wrong type *)
| AttributeError                 (* .get on a value that is not a dict *)
| UnboundLocalError (var : string)
| JSONDecodeError                (* response.json() on a body that is not JSON *)
| RequestException.              (* requests.get could not complete *)

Definition res (A : Type) : Type := exn + A.

Definition rbind {A B} (r : res A) (f : A -> res B) : res B :=
  match r with
  | inl e => inl e
  | inr a => f a
  end.

Notation "x <~ r ; k" := (rbind r (fun x => k))
  (at level 100, r at next level, right associativity).

(** [[f(x) for x in l]]: the elements are evaluated left to right and the
    first exception ends the comprehension. *)
Fixpoint rmap {A B} (f : A -> res B) (l : list A) : res (list B) :=
  match l with
  | [] => inr []
  | x :: l' => y <~ f x; ys <~ rmap f l'; inr (y :: ys)
  end.

(** A [for] loop that updates local state and stops at the first
    exception. *)
Fixpoint rfold {A B} (f : A -> B -> res A) (acc : A) (l : list B) : res A :=
  match l with
  | [] => inr acc
  | x :: l' => a <~ f acc x; rfold f a l'
  end.

(** ** Python operations on parsed values *)

(** [bool(v)], as used by [if v:] and [not v]. *)
Definition truthy (v : json) : bool :=
  match v with
  | JNull => false
  | JBool b => b
  | JInt z => negb (Z.eqb z 0)
  | JStr s => negb (String.eqb s EmptyString)
  | JList l => match l with [] => false | _ => true end
  | JObj kvs => match kvs with [] => false | _ => true end
  end.

(** A dict is kept as its items in insertion order; a key is looked up from
    the front. *)
Fixpoint dict_get (k : string) (kvs : list (string * json)) : option json :=
  match kvs with
  | [] => None
  | (k', v) :: kvs' => if String.eqb k k' then Some v else dict_get k kvs'
  end.

(** [v[k]] with a string key. *)
Definition getitem (v : json) (k : string) : res json :=
  match v with
  | JObj kvs =>
      match dict_get k kvs with
      | Some x => inr x
      | None => inl (KeyError k)
      end
  | _ => inl TypeError
  end.

(** [v.get(k, d)]: only a dict has the method. *)
Definition get (v : json) (k : string) (d : json) : res json :=
  match v with
  | JObj kvs => inr (default d (dict_get k kvs))
  | _ => inl AttributeError
  end.

Fixpoint is_prefix (p s : string) : bool :=
  match p, s with
  | EmptyString, _ => true
  | String a p', String b s' => Ascii.eqb a b && is_prefix p' s'
  | String _ _, EmptyString => false
  end.

Fixpoint is_substring (p s : string) : bool :=
  is_prefix p s ||
  match s with
  | EmptyString => false
  | String _ s' => is_substring p s'
  end.

Definition str_eq (k : string) (v : json) : bool :=
  match v with
  | JStr s => String.eqb k s
  | _ => false
  end.

(** [k in v] for a string [k]: key membership on a dict, element membership
    on a list, substring test on a string, TypeError on anything else. *)
Definition contains (k : string) (v : json) : res bool :=
  match v with
  | JObj kvs => inr (match dict_get k kvs with Some _ => true | None => false end)
  | JList l => inr (existsb (str_eq k) l)
  | JStr s => inr (is_substring k s)
  | _ => inl TypeError
  end.

(** [for x in v]: a list yields its elements, a dict its keys, a string its
    characters. *)
Definition iter (v : json) : res (list json) :=
  match v with
  | JList l => inr l
  | JObj kvs => inr (map (fun kv => JStr (fst kv)) kvs)
  | JStr s => inr (map (fun c => JStr (String c EmptyString)) (list_ascii_of_string s))
  | _ => inl TypeError
  end.

(** Values a [set] accepts. *)
Definition hashable (v : json) : bool :=
  match v with
  | JList _ | JObj _ => false
  | _ => true
  end.

Definition as_number (v : json) : option Z :=
  match v with
  | JBool b => Some (if b then 1 else 0)
  | JInt z => Some z
  | _ => None
  end.

(** [a == b] on hashable values: [True == 1], [False == 0], and otherwise
    equal values of one type.  Containers never reach it, [set] rejects them
    first. *)
Definition scalar_eq (a b : json) : bool :=
  match a, b with
  | JNull, JNull => true
  | JStr s, JStr t => String.eqb s t
  | _, _ =>
      match as_number a, as_number b with
      | Some x, Some y => Z.eqb x y
      | _, _ => false
      end
  end.

(** The elements a set built from [l] holds: of equal values the first one
    inserted stays. *)
Fixpoint distinct (l : list json) : list json :=
  match l with
  | [] => []
  | x :: l' => x :: List.filter (fun y => negb (scalar_eq x y)) (distinct l')
  end.

(** ** [repr] and [str] *)

Definition squote : ascii := "039"%char.
Definition dquote : ascii := "034"%char.
Definition backslash : ascii := "092"%char.

Definition hex_digit (n : N) : ascii :=
  match n with
  | 0 => "0" | 1 => "1" | 2 => "2" | 3 => "3" | 4 => "4" | 5 => "5"
  | 6 => "6" | 7 => "7" | 8 => "8" | 9 => "9" | 10 => "a" | 11 => "b"
  | 12 => "c" | 13 => "d" | 14 => "e" | _ => "f"
  end%char%N.

(** Code points that [repr] writes as an escape: the
    ASCII control characters and DEL, and of the code points 128 to 255 the
    ones that are not printable (the C1 controls, the no-break space and the
    soft hyphen). *)
Definition unprintable (n : N) : bool :=
  (N.ltb n 32 || N.eqb n 127 || (N.leb 128 n && N.leb n 160) || N.eqb n 173)%bool.

(** One character of a string inside the quotes [q]. *)
Definition repr_char (q c : ascii) : string :=
  let n := N_of_ascii c in
  if (Ascii.eqb c q || Ascii.eqb c backslash)%bool then
    String backslash (String c EmptyString)
  else if N.eqb n 9 then String backslash "t"
  else if N.eqb n 10 then String backslash "n"
  else if N.eqb n 13 then String backslash "r"
  else if unprintable n then
    String backslash
      (String "x"%char
         (String (hex_digit (N.div n 16))
            (String (hex_digit (N.modulo n 16)) EmptyString)))
  else String c EmptyString.

Fixpoint has_char (c : ascii) (s : string) : bool :=
  match s with
  | EmptyString => false
  | String a s' => (Ascii.eqb a c || has_char c s')%bool
  end.

(** Double quotes are chosen when the string holds a single quote and no
    double quote, single quotes otherwise. *)
Definition quote_for (s : string) : ascii :=
  if (has_char squote s && negb (has_char dquote s))%bool then dquote else squote.

Fixpoint repr_chars (q : ascii) (s : string) : string :=
  match s with
  | EmptyString => EmptyString
  | String c s' => repr_char q c +:+ repr_chars q s'
  end.

Definition repr_str (s : string) : string :=
  let q := quote_for s in
  String q (repr_chars q s +:+ String q EmptyString).

(** [repr(v)] *)
Fixpoint repr (v : json) : string :=
  match v with
  | JNull => "None"
  | JBool true => "True"
  | JBool false => "False"
  | JInt z => pretty z
  | JStr s => repr_str s
  | JList l => "[" +:+ String.concat ", " (map repr l) +:+ "]"
  | JObj kvs =>
      "{" +:+
      String.concat ", "
        (map (fun kv => repr_str (fst kv) +:+ ": " +:+ repr (snd kv)) kvs)
      +:+ "}"
  end.

(** [str(v)], which is what an f-string and [print] use: a string is itself,
    every other value is its [repr]. *)
Definition str (v : json) : string :=
  match v with
  | JStr s => s
  | _ => repr v
  end.

End Py.

(** ** Chart specifications (plotly.graph_objs) *)

Module Plotly.
Import Py.

(** The two trace types the callback builds, with the properties it sets.
    A figure records the arguments the callback passes; what plotly itself
    does with them lies outside the source. *)
Inductive trace : Type :=
| Scatter (x y : list json) (mode : string) (name : json)
          (marker_color : option string)
| Bar (x y : list json) (marker_color : string).

Record layout : Type := Layout {
  title : option string;
  xaxis_title : option string;
  yaxis_title : option string;
  yaxis_type : option string
}.

Record Figure : Type := MkFigure {
  data : list trace;
  fig_layout : layout
}.

(** [go.Figure()] *)
Definition new_figure : Figure :=
  MkFigure [] (Layout None None None None).

(** [fig.add_trace(t)] *)
Definition add_trace (fig : Figure) (t : trace) : Figure :=
  MkFigure (data fig ++ [t]) (fig_layout fig).

Definition set_if (new old : option string) : option string :=
  match new with
  | Some s => Some s
  | None => old
  end.

(** [fig.update_layout(...)]: the keywords given overwrite, the others stay. *)
Definition update_layout (fig : Figure) (upd : layout) : Figure :=
  MkFigure (data fig)
    (Layout (set_if (title upd) (title (fig_layout fig)))
            (set_if (xaxis_title upd) (xaxis_title (fig_layout fig)))
            (set_if (yaxis_title upd) (yaxis_title (fig_layout fig)))
            (set_if (yaxis_type upd) (yaxis_type (fig_layout fig)))).

(** [fig.update_layout(title=t)] *)
Definition titled (t : string) : layout := Layout (Some t) None None None.

(** [fig.update_layout(title=t, xaxis_title=x, yaxis_title=y)] *)
Definition titled_axes (t x y : string) : layout :=
  Layout (Some t) (Some x) (Some y) None.

End Plotly.

(** ** The dashboard callback, [src/app.py] *)

Module App.
Import Py Plotly.

(** What the callback does to the outside: the GET requests it sends, with
    their Authorization header, and the exception it prints. *)
Inductive event : Type :=
| Get (url authorization : string)
| PrintError (e : exn).

(** An HTTP response; [body] is [None] when [response.json()] would raise. *)
Record response : Type := MkResponse {
  status_code : Z;
  body : option json
}.

(** One value of the tuple the callback returns. *)
Inductive output : Type :=
| OFig (fig : Figure)
| OBool (b : bool).

(** The seven [Output]s the decorator declares, in order. *)
Definition callback_outputs : list (string * string) :=
  [ ("graph-heart-rate", "figure"); ("graph-steps", "figure");
    ("graph-weight", "figure"); ("graph-spo2", "figure");
    ("graph-activity-minutes", "figure"); ("graph-sleep", "figure");
    ("errordialog", "displayed") ].

(** Computations that send requests: the events so far and a result. *)
Definition M (A : Type) : Type := list event * res A.

Definition ret {A} (a : A) : M A := ([], inr a).

Definition bind {A B} (m : M A) (f : A -> M B) : M B :=
  match m with
  | (evs, inl e) => (evs, inl e)
  | (evs, inr a) => let (evs', r) := f a in (evs ++ evs', r)
  end.

Definition lift {A} (r : res A) : M A := ([], r).

Notation "x <- m ;; k" := (bind m (fun x => k))
  (at level 100, m at next level, right associativity).

(** *** The charts, one function per metric *)

(** [[dp[k] for dp in series]] *)
Definition column (k : string) (series : json) : res (list json) :=
  pts <~ iter series; rmap (fun dp => getitem dp k) pts.

(** The x and y comprehensions and the line trace of the four intraday
    metrics. *)
Definition line_figure (series : json) (name title xt yt : string) : res Figure :=
  xs <~ column "time" series;
  ys <~ column "value" series;
  inr (update_layout
         (add_trace new_figure (Scatter xs ys "lines" (JStr name) None))
         (titled_axes title xt yt)).

(** Lines 93-105.  The series is read without a guard, and the [else]
    branch updates [fig_hr], which no statement has assigned yet. *)
Definition heart_chart (selected_date : string) (hr_data : json) : res Figure :=
  intraday <~ getitem hr_data "activities-heart-intraday";
  hr_series <~ getitem intraday "dataset";
  if truthy hr_series then
    line_figure hr_series "Heart Rate"
      ("Heart Rate on " +:+ selected_date) "Time" "BPM"
  else inl (UnboundLocalError "fig_hr").

(** [data[key]["dataset"] if key in data else []] *)
Definition guarded_series (key : string) (data : json) : res json :=
  has <~ contains key data;
  if has then d <~ getitem data key; getitem d "dataset"
  else inr (JList []).

(** Lines 112-124. *)
Definition steps_chart (selected_date : string) (steps_data : json) : res Figure :=
  steps_series <~ guarded_series "activities-steps-intraday" steps_data;
  if truthy steps_series then
    line_figure steps_series "Steps"
      ("Steps on " +:+ selected_date) "Time" "Steps per Minute"
  else inr (update_layout new_figure (titled "No Steps Data Available")).

(** Lines 207-219. *)
Definition weight_chart (selected_date : string) (weight_data : json) : res Figure :=
  weight_series <~ guarded_series "weight-intraday" weight_data;
  if truthy weight_series then
    line_figure weight_series "Weight"
      ("weight on " +:+ selected_date) "Time" "Weight"
  else inr (update_layout new_figure (titled "No Weight Data Available")).

(** Lines 226-245. *)
Definition spo2_chart (selected_date : string) (spo2_data : json) : res Figure :=
  spo2_series <~ guarded_series "spo2-intraday" spo2_data;
  if truthy spo2_series then
    line_figure spo2_series "SPO2"
      ("SPO2 on " +:+ selected_date) "Time" "spo2 per Minute"
  else inr (update_layout new_figure (titled "No SPO2 Data Available")).

(** Lines 184-200.  As for the heart rate, the [else] branch updates a
    figure that was never created. *)
Definition activity_labels : list json :=
  [JStr "Sedentary"; JStr "Light"; JStr "Moderate"; JStr "Vigorous"].

Definition activity_chart (selected_date : string) (activity_data : json) : res Figure :=
  summary <~ get activity_data "summary" (JObj []);
  if truthy summary then
    sedentary <~ get summary "sedentaryMinutes" (JInt 0);
    lightly <~ get summary "lightlyActiveMinutes" (JInt 0);
    moderately <~ get summary "moderatelyActiveMinutes" (JInt 0);
    very <~ get summary "veryActiveMinutes" (JInt 0);
    inr (update_layout
           (add_trace new_figure
              (Bar activity_labels [sedentary; lightly; moderately; very] "green"))
           (titled_axes ("Activity Minutes on " +:+ selected_date)
              "Activity Type" "Minutes"))
  else inl (UnboundLocalError "fig_activity").

(** *** Sleep: lines 132-174 *)

Definition initial_sleep_stages : list (string * json) :=
  [("deep", JInt 0); ("light", JInt 0); ("rem", JInt 0); ("wake", JInt 0)].

(** [sleep_stages[stage] = summary.get(stage, {}).get("minutes", 0)] *)
Definition stage_minutes (summary : json) (entry : string * json) :
    res (string * json) :=
  d <~ get summary (fst entry) (JObj []);
  m <~ get d "minutes" (JInt 0);
  inr (fst entry, m).

(** [(point["dateTime"], point["level"])] *)
Definition sleep_point (point : json) : res (json * json) :=
  t <~ getitem point "dateTime";
  s <~ getitem point "level";
  inr (t, s).

(** The state of the loop over the records: [sleep_stages] and
    [sleep_series]. *)
Definition sleep_state : Type := list (string * json) * list (json * json).

(** One pass of the loop body of lines 135-143. *)
Definition sleep_record (st : sleep_state) (record : json) : res sleep_state :=
  main <~ get record "isMainSleep" JNull;
  if truthy main then
    levels <~ get record "levels" (JObj []);
    summary <~ get levels "summary" (JObj []);
    stages <~ rmap (stage_minutes summary) (fst st);
    levels' <~ get record "levels" (JObj []);
    points <~ get levels' "data" (JList []);
    points <~ iter points;
    new <~ rmap sleep_point points;
    inr (stages, snd st ++ new)
  else inr st.

Definition sleep_reduce (sleep_data : json) : res sleep_state :=
  records <~ get sleep_data "sleep" (JList []);
  records <~ iter records;
  rfold sleep_record (initial_sleep_stages, []) records.

Definition stage_colors : list (string * string) :=
  [ ("wake", "red"); ("light", "blue"); ("deep", "purple"); ("rem", "green");
    ("asleep", "blue"); ("restless", "orange") ].

Fixpoint color_get (k : string) (d : list (string * string)) : option string :=
  match d with
  | [] => None
  | (k', c) :: d' => if String.eqb k k' then Some c else color_get k d'
  end.

(** [stage_colors.get(stage, "gray")]: the keys are strings, so only a string
    can hit one. *)
Definition stage_color (stage : json) : string :=
  match stage with
  | JStr s => default "gray" (color_get s stage_colors)
  | _ => "gray"
  end.

(** The trace of one stage: lines 158-165. *)
Definition stage_trace (sleep_series : list (json * json)) (stage : json) : trace :=
  let times :=
    map fst (List.filter (fun p => scalar_eq (snd p) stage) sleep_series) in
  Scatter times (List.repeat stage (length times)) "markers" stage
    (Some (stage_color stage)).

Definition sleep_layout (selected_date : string) : layout :=
  Layout (Some ("Sleep Stages on " +:+ selected_date)) (Some "Time")
    (Some "Stage") (Some "category").

Section Callback.

(** The Fitbit API as the callback sees it: the response to a GET of a URL
    with an Authorization header, [None] when [requests.get] raises. *)
Variable api : string -> string -> option response.

(** The order in which a Python [set] holding the given distinct values is
    iterated.  It follows the hashes of the values, and the hash of a string
    changes with the hash seed of the process. *)
Variable set_order : list json -> list json.

(** [set(l)], iterated. *)
Definition py_set (l : list json) : res (list json) :=
  if forallb hashable l then inr (set_order (distinct l))
  else inl TypeError.

(** Lines 145-174. *)
Definition sleep_chart (selected_date : string)
    (sleep_series : list (json * json)) : res Figure :=
  match sleep_series with
  | [] => inr (update_layout new_figure (titled "No Sleep Data Available"))
  | _ :: _ =>
      stages <~ py_set (map snd sleep_series);
      inr (update_layout
             (fold_left
                (fun fig stage => add_trace fig (stage_trace sleep_series stage))
                stages new_figure)
             (sleep_layout selected_date))
  end.

(** *** The requests *)

Definition base_url : string := "https://api.fitbit.com/1/user/-".

Definition url_heart (d : string) : string :=
  base_url +:+ "/activities/heart/date/" +:+ d +:+ "/1d/1min.json".
Definition url_steps (d : string) : string :=
  base_url +:+ "/activities/steps/date/" +:+ d +:+ "/1d/1min.json".
Definition url_weight (d : string) : string :=
  base_url +:+ "/body/log/weight/date/" +:+ d +:+ ".json".
Definition url_activity (d : string) : string :=
  base_url +:+ "/activities/date/" +:+ d +:+ ".json".
Definition url_spo2 (d : string) : string :=
  base_url +:+ "/spo2/date/" +:+ d +:+ ".json".
Definition url_sleep (d : string) : string :=
  "https://api.fitbit.com/1.2/user/-/sleep/date/" +:+ d +:+ ".json".

(** [requests.get(url, headers=headers)], the status check that raises
    [Exception(fail_msg)], and [response.json()]. *)
Definition fetch (url auth fail_msg : string) : M json :=
  ([Get url auth],
   match api url auth with
   | None => inl RequestException
   | Some r =>
       if Z.eqb (status_code r) 200 then
         match body r with
         | Some j => inr j
         | None => inl JSONDecodeError
         end
       else inl (Raised fail_msg)
   end).

(** The body of the [try]: lines 87-287. *)
Definition pipeline (token selected_date : string) : M (list output) :=
  let auth := "Bearer " +:+ token in
  hr_data <- fetch (url_heart selected_date) auth "Heart rate request failed";;
  fig_hr <- lift (heart_chart selected_date hr_data);;
  steps_data <- fetch (url_steps selected_date) auth "Steps request failed";;
  fig_steps <- lift (steps_chart selected_date steps_data);;
  sleep_data <- fetch (url_sleep selected_date) auth "Sleep data request failed";;
  sleep <- lift (sleep_reduce sleep_data);;
  fig_sleep <- lift (sleep_chart selected_date (snd sleep));;
  activity_data <- fetch (url_activity selected_date) auth "Activity request failed";;
  fig_activity <- lift (activity_chart selected_date activity_data);;
  weight_data <- fetch (url_weight selected_date) auth "Weight request failed";;
  fig_weight <- lift (weight_chart selected_date weight_data);;
  spo2_data <- fetch (url_spo2 selected_date) auth "SPO2 request failed";;
  fig_spo2 <- lift (spo2_chart selected_date spo2_data);;
  ret [OFig fig_hr; OFig fig_steps; OFig fig_weight; OFig fig_spo2;
       OFig fig_activity; OFig fig_sleep; OBool false].

(** [return go.Figure(), True], at lines 72 and 291. *)
Definition failure_output : list output := [OFig new_figure; OBool true].

(** [not s] for a value that is a string or [None]. *)
Definition missing (s : option string) : bool :=
  match s with
  | None => true
  | Some s => String.eqb s EmptyString
  end.

(** The callback: the tuple it returns and what it did on the way. *)
Definition fetch_fitbit_data (n_clicks : Z) (token selected_date : option string) :
    list output * list event :=
  match token, selected_date with
  | Some t, Some d =>
      if missing token || missing selected_date then (failure_output, [])
      else
        match pipeline t d with
        | (evs, inr out) => (out, evs)
        | (evs, inl e) => (failure_output, evs ++ [PrintError e])
        end
  | _, _ => (failure_output, [])
  end.

End Callback.

End App.

(** ** The logging endpoint, [src/main.py] *)

Module Logger.
Import Py.







End Logger.

(** ** What an observer of the callback sees *)

Module Obs.
Import Py Plotly App.

(** The (URL, Authorization) pairs of the requests sent, in order. *)
Definition requests (evs : list event) : list (string * string) :=
  flat_map (fun e => match e with
                     | Get u a => [(u, a)]
                     | PrintError _ => []
                     end) evs.

(** The six requests in the order of the source: heart rate, steps, sleep,
    activity, weight, blood oxygen. *)
Definition planned (token selected_date : string) : list (string * string) :=
  map (fun u => (u, "Bearer " +:+ token))
    [ url_heart selected_date; url_steps selected_date; url_sleep selected_date;
      url_activity selected_date; url_weight selected_date;
      url_spo2 selected_date ].

(** The outcome of one request, without its event. *)
Definition fetched (api : string -> string -> option response)
    (url auth msg : string) : res json :=
  snd (fetch api url auth msg).

(** The request is answered with status 200 and the JSON body [j]. *)
Definition answers (api : string -> string -> option response)
    (url auth : string) (j : json) : Prop :=
  exists r, api url auth = Some r /\ status_code r = 200 /\ body r = Some j.

(** The chart the callback builds from the body of the request that stands
    at place [i] of the plan, counted from 0. *)
Definition stage_chart (set_order : list json -> list json)
    (selected_date : string) (i : nat) (body : json) : res Figure :=
  match i with
  | 0%nat => heart_chart selected_date body
  | 1%nat => steps_chart selected_date body
  | 2%nat => st <~ sleep_reduce body; sleep_chart set_order selected_date (snd st)
  | 3%nat => activity_chart selected_date body
  | 4%nat => weight_chart selected_date body
  | _ => spo2_chart selected_date body
  end.

(** A body without keys of its own on which the membership test raises. *)
Definition keyless_scalar (body : json) : bool :=
  match body with
  | JNull | JBool _ | JInt _ => true
  | _ => false
  end.

(** Six blank figures and the error flag: the tuple the seven declared
    outputs call for on a failure. *)
Definition six_blank_and_flag : list output :=
  repeat (OFig new_figure) 6 ++ [OBool true].

(** A chart with a title and nothing else. *)
Definition no_data_figure (t : string) : Figure :=
  MkFigure [] (Layout (Some t) None None None).

(** *** The sleep reduction, record by record *)

(** [record.get("isMainSleep")] is truthy. *)
Definition is_main (record : json) : bool :=
  match get record "isMainSleep" JNull with
  | inr flag => truthy flag
  | inl _ => false
  end.

(** The record is a dict whose [isMainSleep] is absent or falsy. *)
Definition not_main (record : json) : Prop :=
  exists flag, get record "isMainSleep" JNull = inr flag /\ truthy flag = false.

(** The minutes line 139 reads from the summary of one record. *)
Definition record_stages (record : json) : res (list (string * json)) :=
  levels <~ get record "levels" (JObj []);
  summary <~ get levels "summary" (JObj []);
  rmap (stage_minutes summary) initial_sleep_stages.

(** The points lines 142-143 read from one record, in the order of its
    [levels.data]. *)
Definition record_points (record : json) : res (list (json * json)) :=
  levels <~ get record "levels" (JObj []);
  points <~ get levels "data" (JList []);
  points <~ iter points;
  rmap sleep_point points.

Definition contribution (record : json) :
    res (list (string * json) * list (json * json)) :=
  stages <~ record_stages record;
  points <~ record_points record;
  inr (stages, points).

(** *** Sleep responses that differ in their summaries only *)

Definition dict_remove (k : string) (kvs : list (string * json)) :
    list (string * json) :=
  List.filter (fun kv => negb (String.eqb k (fst kv))) kvs.

Definition map_value (k : string) (f : json -> json)
    (kvs : list (string * json)) : list (string * json) :=
  map (fun kv => if String.eqb k (fst kv) then (fst kv, f (snd kv)) else kv) kvs.

(** A [levels] object without its [summary]. *)
Definition drop_summary (levels : json) : json :=
  match levels with
  | JObj l => JObj (dict_remove "summary" l)
  | v => v
  end.

(** A sleep record without its [levels.summary]. *)
Definition without_summary (record : json) : json :=
  match record with
  | JObj kvs => JObj (map_value "levels" drop_summary kvs)
  | v => v
  end.

Definition map_records (f : json -> json) (records : json) : json :=
  match records with
  | JList l => JList (map f l)
  | v => v
  end.

(** A sleep response without the [levels.summary] of any record: two
    responses differ in their summaries only when this makes them equal. *)
Definition without_summaries (sleep_data : json) : json :=
  match sleep_data with
  | JObj kvs => JObj (map_value "sleep" (map_records without_summary) kvs)
  | v => v
  end.

(** *** Charts up to the order of their traces *)

(** An iteration order only rearranges the values of the set. *)
Definition valid_order (set_order : list json -> list json) : Prop :=
  forall l, Permutation (set_order l) l.

Definition same_chart (f1 f2 : Figure) : Prop :=
  fig_layout f1 = fig_layout f2 /\ Permutation (data f1) (data f2).

Definition same_output (o1 o2 : output) : Prop :=
  match o1, o2 with
  | OFig f1, OFig f2 => same_chart f1 f2
  | OBool b1, OBool b2 => b1 = b2
  | _, _ => False
  end.

(** Two returned tuples that agree on every value but the sleep figure, the
    sixth, whose traces may come in another order. *)
Definition same_but_trace_order (out1 out2 : list output) : Prop :=
  firstn 5 out1 = firstn 5 out2 /\
  skipn 6 out1 = skipn 6 out2 /\
  Forall2 same_output out1 out2.

(** Two computations with the same events and results equal up to the order
    of the sleep traces. *)
Definition same_run (m1 m2 : M (list output)) : Prop :=
  fst m1 = fst m2 /\
  match snd m1, snd m2 with
  | inl e1, inl e2 => e1 = e2
  | inr o1, inr o2 => same_but_trace_order o1 o2
  | _, _ => False
  end.

End Obs.

(** ** Concrete responses used by the examples *)

Module Fixture.
Import Py Plotly App.

Definition token : string := "tok".
Definition day : string := "2025-06-01".

Definition point (t : string) (v : Z) : json :=
  JObj [("time", JStr t); ("value", JInt v)].

Definition intraday (key : string) (dataset : list json) : json :=
  JObj [(key, JObj [("dataset", JList dataset)])].

Definition hr_body : json :=
  intraday "activities-heart-intraday" [point "00:00:00" 61; point "00:01:00" 63].
Definition steps_body : json :=
  intraday "activities-steps-intraday" [point "00:00:00" 0; point "00:01:00" 12].
Definition weight_body : json :=
  intraday "weight-intraday" [point "07:30:00" 72].
Definition spo2_body : json :=
  intraday "spo2-intraday" [point "03:00:00" 96].
Definition activity_body : json :=
  JObj [("summary",
         JObj [("sedentaryMinutes", JInt 600); ("lightlyActiveMinutes", JInt 200);
               ("veryActiveMinutes", JInt 30)])].

Definition stage_point (t level : string) : json :=
  JObj [("dateTime", JStr t); ("level", JStr level)].

Definition minutes (m : Z) : json := JObj [("minutes", JInt m)].

Definition sleep_rec (main : bool) (summary : json) (points : list json) : json :=
  JObj [("isMainSleep", JBool main);
        ("levels", JObj [("summary", summary); ("data", JList points)])].

Definition night_points : list json :=
  [stage_point "2025-06-01T00:10:00" "light";
   stage_point "2025-06-01T01:00:00" "deep";
   stage_point "2025-06-01T02:00:00" "light"].

Definition night : json :=
  sleep_rec true
    (JObj [("deep", minutes 50); ("light", minutes 200); ("rem", minutes 80);
           ("wake", minutes 30)])
    night_points.

Definition nap : json :=
  sleep_rec false
    (JObj [("deep", minutes 5); ("light", minutes 20)])
    [stage_point "2025-06-01T14:00:00" "light";
     stage_point "2025-06-01T14:20:00" "wake"].

Definition sleep_body : json := JObj [("sleep", JList [night; nap])].

Definition ok (b : json) : option response := Some (MkResponse 200 (Some b)).

(** An API that answers the six requests of [day] made with [token], and
    refuses everything else. *)
Definition api_with (hr steps sleep activity weight spo2 : option response)
    (url auth : string) : option response :=
  if negb (String.eqb auth "Bearer tok") then Some (MkResponse 401 None)
  else if String.eqb url (url_heart day) then hr
  else if String.eqb url (url_steps day) then steps
  else if String.eqb url (url_sleep day) then sleep
  else if String.eqb url (url_activity day) then activity
  else if String.eqb url (url_weight day) then weight
  else if String.eqb url (url_spo2 day) then spo2
  else Some (MkResponse 404 None).

Definition api_ok : string -> string -> option response :=
  api_with (ok hr_body) (ok steps_body) (ok sleep_body) (ok activity_body)
    (ok weight_body) (ok spo2_body).

(** Two iteration orders a set can have. *)
Definition insertion_order (l : list json) : list json := l.
Definition reverse_order (l : list json) : list json := rev l.

(** The sleep answer with other minutes in the summaries. *)
Definition sleep_body_other_minutes : json :=
  JObj [("sleep",
         JList [sleep_rec true (JObj [("deep", minutes 1); ("wake", minutes 2)])
                  night_points;
                nap])].

(** The sleep answer with a summary that maps a stage to its minutes
    directly. *)
Definition sleep_body_flat_summary : json :=
  JObj [("sleep",
         JList [sleep_rec true (JObj [("deep", JInt 50)]) night_points; nap])].

Definition api_sleep (sleep : json) : string -> string -> option response :=
  api_with (ok hr_body) (ok steps_body) (ok sleep) (ok activity_body)
    (ok weight_body) (ok spo2_body).

(** An API that answers the six requests like [api_ok] and differs on
    another Authorization header. *)
Definition api_ok_elsewhere (url auth : string) : option response :=
  if String.eqb auth "Bearer other" then Some (MkResponse 200 None)
  else api_ok url auth.

Definition light_trace : trace :=
  Scatter [JStr "2025-06-01T00:10:00"; JStr "2025-06-01T02:00:00"]
    [JStr "light"; JStr "light"] "markers" (JStr "light") (Some "blue").

Definition deep_trace : trace :=
  Scatter [JStr "2025-06-01T01:00:00"] [JStr "deep"] "markers" (JStr "deep")
    (Some "purple").





End Fixture.

(** ** Further observations and inputs *)

Module More.
Import Py Plotly App Logger Obs Fixture.

(** The [Get] events of a list of requests. *)
Definition gets (l : list (string * string)) : list event :=
  map (fun ua => Get (fst ua) (snd ua)) l.

(** The request does not end in a parsed body: [requests.get] raises, the
    status is not 200, or the body is not JSON. *)
Definition unanswered (api : string -> string -> option response)
    (url auth : string) : bool :=
  match api url auth with
  | None => true
  | Some r =>
      negb (Z.eqb (status_code r) 200)
      || match body r with Some _ => false | None => true end
  end.

(** [hr_data["activities-heart-intraday"]["dataset"]], line 94. *)
Definition heart_series (hr_data : json) : res json :=
  intraday <~ getitem hr_data "activities-heart-intraday";
  getitem intraday "dataset".

(** The line chart lines 100-102, 119-121, 214-216 and 240-242 build. *)
Definition line_chart (xs ys : list json) (name title yt : string) : Figure :=
  MkFigure [Scatter xs ys "lines" (JStr name) None]
    (Layout (Some title) (Some "Time") (Some yt) None).








(** *** Inputs of the examples *)

Definition api_heart (hr : option response) : string -> string -> option response :=
  api_with hr (ok steps_body) (ok sleep_body) (ok activity_body)
    (ok weight_body) (ok spo2_body).

Definition api_activity (activity : option response) :
    string -> string -> option response :=
  api_with (ok hr_body) (ok steps_body) (ok sleep_body) activity
    (ok weight_body) (ok spo2_body).

Definition api_spo2 (spo2 : option response) : string -> string -> option response :=
  api_with (ok hr_body) (ok steps_body) (ok sleep_body) (ok activity_body)
    (ok weight_body) spo2.

Definition two_points : list json := [point "00:00:00" 61; point "00:01:00" 63].

Definition only_naps : json := JObj [("sleep", JList [nap; nap])].

End More.

(** ** Properties of the callback *)

Module AppSpec.
Import Py Plotly App Obs.

Section Facts.

Variable api : string -> string -> option response.
Variable set_order : list json -> list json.

Local Abbreviation fetched := (Obs.fetched api).
Local Abbreviation answers := (Obs.answers api).

Lemma bind_fetch {B} url auth msg (f : json -> M B) :
  bind (fetch api url auth msg) f =
  match fetched url auth msg with
  | inr j => let (evs, r) := f j in (Get url auth :: evs, r)
  | inl e => ([Get url auth], inl e)
  end.
Proof.
  unfold Obs.fetched, bind, fetch; cbn [snd].
  destruct (api url auth) as [r|]; [|reflexivity].
  destruct (Z.eqb (status_code r) 200); [|reflexivity].
  destruct (body r); [|reflexivity].
  destruct (f j); reflexivity.
Qed.

Lemma bind_lift {A B} (r : res A) (f : A -> M B) :
  bind (lift r) f =
  match r with
  | inl e => ([], inl e)
  | inr a => f a
  end.
Proof.
  unfold bind, lift. destruct r as [e|a]; [reflexivity|].
  destruct (f a); reflexivity.
Qed.

Lemma fetched_inr url auth msg j :
  fetched url auth msg = inr j -> answers url auth j.
Proof.
  unfold Obs.answers, Obs.fetched, fetch; cbn [snd].
  destruct (api url auth) as [r|]; [|discriminate].
  destruct (Z.eqb_spec (status_code r) 200) as [Hs|]; [|discriminate].
  destruct (body r) as [j'|] eqn:Hb; [|discriminate].
  intros [= <-]. exists r. repeat split; assumption || reflexivity.
Qed.

Lemma fetched_not_200 url auth msg r :
  api url auth = Some r -> status_code r <> 200 ->
  fetched url auth msg = inl (Raised msg).
Proof.
  intros Hr Hs. unfold Obs.fetched, fetch; cbn [snd]. rewrite Hr.
  destruct (Z.eqb_spec (status_code r) 200); [contradiction|reflexivity].
Qed.

(** Running the [try] body one statement at a time. *)
Ltac run_fetch H :=
  rewrite bind_fetch;
  match goal with
  | |- context [fetched ?u ?a ?m] => destruct (fetched u a m) eqn:H
  end.

Ltac run_lift H :=
  rewrite bind_lift;
  match goal with
  | |- context [match ?r with inl _ => _ | inr _ => _ end] =>
      destruct r eqn:H
  end.

Ltac contradict_status :=
  match goal with
  | F : fetched ?u ?a _ = inr _, Hr : api ?u ?a = Some ?r,
    Hs : status_code ?r <> 200 |- _ =>
      apply fetched_inr in F; destruct F as (r' & Hr' & Hs' & _);
      rewrite Hr in Hr'; injection Hr' as <-; contradiction
  end.

Lemma answers_fetched url auth msg j :
  answers url auth j -> fetched url auth msg = inr j.
Proof.
  intros (r & Hr & Hs & Hb). unfold Obs.fetched, fetch; cbn [snd].
  rewrite Hr, Hs, Hb. reflexivity.
Qed.

(** The callback returns charts only when each of the six requests was
    answered with status 200 and each chart could be built; the tuple then
    holds the six figures in the order of the return statement. *)
Lemma pipeline_inr token selected_date evs out :
  pipeline api set_order token selected_date = (evs, inr out) ->
  let auth := "Bearer " +:+ token in
  exists hr steps sleep activity weight spo2 st
         fig_hr fig_steps fig_sleep fig_activity fig_weight fig_spo2,
    answers (url_heart selected_date) auth hr /\
    answers (url_steps selected_date) auth steps /\
    answers (url_sleep selected_date) auth sleep /\
    answers (url_activity selected_date) auth activity /\
    answers (url_weight selected_date) auth weight /\
    answers (url_spo2 selected_date) auth spo2 /\
    heart_chart selected_date hr = inr fig_hr /\
    steps_chart selected_date steps = inr fig_steps /\
    sleep_reduce sleep = inr st /\
    sleep_chart set_order selected_date (snd st) = inr fig_sleep /\
    activity_chart selected_date activity = inr fig_activity /\
    weight_chart selected_date weight = inr fig_weight /\
    spo2_chart selected_date spo2 = inr fig_spo2 /\
    out = [OFig fig_hr; OFig fig_steps; OFig fig_weight; OFig fig_spo2;
           OFig fig_activity; OFig fig_sleep; OBool false] /\
    requests evs = planned token selected_date.
Proof.
  cbv zeta. unfold pipeline, planned. set (auth := "Bearer " +:+ token).
  run_fetch F1; [discriminate|run_lift C1; [discriminate|
  run_fetch F2; [discriminate|run_lift C2; [discriminate|
  run_fetch F3; [discriminate|run_lift C3; [discriminate|
  run_lift C3'; [discriminate|
  run_fetch F4; [discriminate|run_lift C4; [discriminate|
  run_fetch F5; [discriminate|run_lift C5; [discriminate|
  run_fetch F6; [discriminate|run_lift C6; [discriminate|]]]]]]]]]]]]].
  cbn [ret]. intros [= <- <-].
  apply fetched_inr in F1, F2, F3, F4, F5, F6.
  do 13 eexists. repeat (split; [eassumption|]). split; reflexivity.
Qed.

(** The other direction: six answers with status 200 from which the six
    charts can be built make the callback return them. *)
Lemma callback_returns_charts n_clicks token selected_date
    hr steps sleep activity weight spo2 st
    fig_hr fig_steps fig_sleep fig_activity fig_weight fig_spo2 :
  let auth := "Bearer " +:+ token in
  missing (Some token) = false -> missing (Some selected_date) = false ->
  answers (url_heart selected_date) auth hr ->
  answers (url_steps selected_date) auth steps ->
  answers (url_sleep selected_date) auth sleep ->
  answers (url_activity selected_date) auth activity ->
  answers (url_weight selected_date) auth weight ->
  answers (url_spo2 selected_date) auth spo2 ->
  heart_chart selected_date hr = inr fig_hr ->
  steps_chart selected_date steps = inr fig_steps ->
  sleep_reduce sleep = inr st ->
  sleep_chart set_order selected_date (snd st) = inr fig_sleep ->
  activity_chart selected_date activity = inr fig_activity ->
  weight_chart selected_date weight = inr fig_weight ->
  spo2_chart selected_date spo2 = inr fig_spo2 ->
  fst (fetch_fitbit_data api set_order n_clicks (Some token) (Some selected_date))
  = [OFig fig_hr; OFig fig_steps; OFig fig_weight; OFig fig_spo2;
     OFig fig_activity; OFig fig_sleep; OBool false].
Proof.
  intros auth Ht Hd A1 A2 A3 A4 A5 A6 C1 C2 C3 C3' C4 C5 C6.
  unfold fetch_fitbit_data. rewrite Ht, Hd. cbn [orb].
  unfold pipeline. fold auth.
  rewrite bind_fetch, (answers_fetched _ _ _ _ A1), bind_lift, C1.
  rewrite bind_fetch, (answers_fetched _ _ _ _ A2), bind_lift, C2.
  rewrite bind_fetch, (answers_fetched _ _ _ _ A3), bind_lift, C3, bind_lift, C3'.
  rewrite bind_fetch, (answers_fetched _ _ _ _ A4), bind_lift, C4.
  rewrite bind_fetch, (answers_fetched _ _ _ _ A5), bind_lift, C5.
  rewrite bind_fetch, (answers_fetched _ _ _ _ A6), bind_lift, C6.
  reflexivity.
Qed.

(** All or nothing: a request of the plan that is answered with a status
    other than 200 leaves the callback with its failure tuple, whatever the
    other five requests would return. *)
Lemma non_200_gives_failure_output n_clicks token selected_date url r :
  In (url, "Bearer " +:+ token) (planned token selected_date) ->
  api url ("Bearer " +:+ token) = Some r ->
  status_code r <> 200 ->
  fst (fetch_fitbit_data api set_order n_clicks (Some token) (Some selected_date))
  = failure_output.
Proof.
  intros Hin Hr Hs. unfold fetch_fitbit_data.
  destruct (missing (Some token) || missing (Some selected_date)); [reflexivity|].
  destruct (pipeline api set_order token selected_date) as [evs [e|out]] eqn:Hp;
    [reflexivity|].
  exfalso. apply pipeline_inr in Hp. cbv zeta in Hp.
  destruct Hp as (hr & steps & sleep & activity & weight & spo2 & st & f1 & f2
                  & f3 & f4 & f5 & f6 & A1 & A2 & A3 & A4 & A5 & A6 & _).
  unfold planned in Hin. cbn [map In] in Hin.
  assert (Hno : forall j, ~ answers url ("Bearer " +:+ token) j).
  { intros j (r' & Hr' & Hs' & _). rewrite Hr in Hr'. injection Hr' as <-.
    contradiction. }
  destruct Hin as [E|[E|[E|[E|[E|[E|[]]]]]]]; injection E as <-;
    eapply Hno; eassumption.
Qed.

Ltac stage_failed :=
  match goal with
  | Hans : answers ?u ?a ?body, F : fetched ?u ?a ?m = _,
    Hfig : stage_chart _ _ _ ?body = inr _ |- _ =>
      rewrite (answers_fetched u a m body Hans) in F;
      first
        [ discriminate F
        | injection F as <-; cbn [stage_chart] in Hfig;
          first
            [ congruence
            | match goal with
              | C : sleep_reduce body = _ |- _ => rewrite C in Hfig
              end;
              cbn [rbind] in Hfig; first [discriminate Hfig | congruence] ] ]
  end.

(** C9: the requests are sent one after the other in the fixed order heart
    rate, steps, sleep, activity, weight, blood oxygen.  What is sent is
    always an initial part of that sequence; with a token and a date the
    first request is sent; whenever a request is answered with status 200
    and a body from which its chart is built, the next one of the sequence
    is sent; and a request that is answered with a status other than 200 is
    the last one sent. *)
Theorem requests_follow_fixed_order n_clicks token selected_date :
  let evs := snd (fetch_fitbit_data api set_order n_clicks token selected_date) in
  let plan := planned (default EmptyString token)
                      (default EmptyString selected_date) in
  (exists k, requests evs = firstn k plan) /\
  (forall i url auth r,
      requests evs !! i = Some (url, auth) ->
      api url auth = Some r ->
      status_code r <> 200 ->
      length (requests evs) = S i) /\
  ((missing token || missing selected_date) = true -> requests evs = []) /\
  ((missing token || missing selected_date) = false ->
   requests evs !! 0%nat = plan !! 0%nat) /\
  (forall i url auth body fig,
      requests evs !! i = Some (url, auth) ->
      answers url auth body ->
      stage_chart set_order (default EmptyString selected_date) i body = inr fig ->
      requests evs !! S i = plan !! S i).
Proof.
  cbv zeta. unfold fetch_fitbit_data.
  assert (Hnone : forall plan,
            (exists k, @nil (string * string) = firstn k plan) /\
            (forall i url auth r,
                @nil (string * string) !! i = Some (url, auth) ->
                api url auth = Some r -> status_code r <> 200 ->
                length (@nil (string * string)) = S i) /\
            (true = true -> @nil (string * string) = []) /\
            (true = false -> @nil (string * string) !! 0%nat = plan !! 0%nat) /\
            (forall i url auth body fig,
                @nil (string * string) !! i = Some (url, auth) ->
                answers url auth body ->
                stage_chart set_order (default EmptyString selected_date) i body
                = inr fig ->
                @nil (string * string) !! S i = plan !! S i)).
  { intros plan. split; [exists 0%nat; reflexivity|].
    split; [intros [|?] ? ? ? ?; discriminate|].
    split; [reflexivity|]. split; [discriminate|].
    intros [|?] ? ? ? ? ?; discriminate. }
  destruct token as [t|], selected_date as [d|];
    try (cbn [missing orb snd requests flat_map]; rewrite ?orb_true_r; apply Hnone).
  destruct (missing (Some t) || missing (Some d));
    [cbn [snd requests flat_map]; apply Hnone|].
  clear Hnone. cbn [from_option id]. unfold pipeline, planned.
  set (auth := "Bearer " +:+ t).
  run_fetch F1; [|run_lift C1; [|run_fetch F2; [|run_lift C2; [|
  run_fetch F3; [|run_lift C3; [|run_lift C3'; [|run_fetch F4; [|run_lift C4; [|
  run_fetch F5; [|run_lift C5; [|run_fetch F6; [|run_lift C6]]]]]]]]]]]];
  cbn [snd fst app requests flat_map map ret];
  (split;
   [ first [ exists 1%nat; reflexivity | exists 2%nat; reflexivity
           | exists 3%nat; reflexivity | exists 4%nat; reflexivity
           | exists 5%nat; reflexivity | exists 6%nat; reflexivity ]
   | split;
     [ intros i url auth' r Hi Hr Hs;
       do 7 (try (destruct i as [|i]; cbn in Hi;
                  [injection Hi as <- <-; first [reflexivity | contradict_status]|]));
       try discriminate
     | split; [discriminate|]; split; [intros _; reflexivity|];
       intros i url auth' body fig Hi Hans Hfig;
       do 7 (try (destruct i as [|i]; cbn in Hi;
                  [injection Hi as <- <-; first [reflexivity | stage_failed]|]));
       try discriminate ] ]).
Qed.

(** The guard of lines 71-72: with the token empty or absent, or no date
    selected, the callback returns what its [except] clause returns, and
    sends no request. *)
Theorem missing_input_short_circuits n_clicks token selected_date :
  missing token = true \/ missing selected_date = true ->
  fetch_fitbit_data api set_order n_clicks token selected_date
  = ([OFig new_figure; OBool true], []).
Proof.
  intros H. unfold fetch_fitbit_data.
  destruct token as [t|], selected_date as [d|]; try reflexivity.
  destruct H as [-> | ->]; [reflexivity|].
  rewrite orb_true_r. reflexivity.
Qed.

(** C5, as amended: a summary object that is not empty is charted as one bar
    trace over the four fixed categories in the order Sedentary, Light,
    Moderate, Vigorous, and a field the summary lacks is charted as 0. *)
Theorem missing_activity_field_charts_zero selected_date activity_data kvs :
  get activity_data "summary" (JObj []) = inr (JObj kvs) ->
  kvs <> [] ->
  activity_chart selected_date activity_data
  = inr (MkFigure
           [Bar [JStr "Sedentary"; JStr "Light"; JStr "Moderate"; JStr "Vigorous"]
                [default (JInt 0) (dict_get "sedentaryMinutes" kvs);
                 default (JInt 0) (dict_get "lightlyActiveMinutes" kvs);
                 default (JInt 0) (dict_get "moderatelyActiveMinutes" kvs);
                 default (JInt 0) (dict_get "veryActiveMinutes" kvs)]
                "green"]
           (Layout (Some ("Activity Minutes on " +:+ selected_date))
                   (Some "Activity Type") (Some "Minutes") None)).
Proof.
  intros Hsum Hne. unfold activity_chart. rewrite Hsum. cbn [rbind truthy].
  destruct kvs as [|kv kvs]; [contradiction|]. reflexivity.
Qed.

Lemma answers_functional url auth j1 j2 :
  answers url auth j1 -> answers url auth j2 -> j1 = j2.
Proof.
  intros (r1 & H1 & _ & B1) (r2 & H2 & _ & B2).
  rewrite H1 in H2. injection H2 as <-. rewrite B1 in B2. injection B2 as <-.
  reflexivity.
Qed.

(** C10, as amended: a steps, weight or blood-oxygen body on which the
    membership test of the guard is False, that is an object without the
    metric's top-level key, a list that does not hold the key or a string
    that does not contain it, is charted as the metric's no-data figure, a
    title and no trace, and nothing is raised; when the callback returns its
    charts, that figure is the one returned for the metric.  On a body that
    is [null], a boolean or a number the membership test itself raises
    TypeError and no chart is built. *)
Theorem absent_key_gives_no_data_chart selected_date :
  (forall key kvs, dict_get key kvs = None -> contains key (JObj kvs) = inr false) /\
  (forall key l, existsb (str_eq key) l = false ->
     contains key (JList l) = inr false) /\
  (forall key s, is_substring key s = false -> contains key (JStr s) = inr false) /\
  (forall body, contains "activities-steps-intraday" body = inr false ->
     steps_chart selected_date body
     = inr (no_data_figure "No Steps Data Available")) /\
  (forall body, contains "weight-intraday" body = inr false ->
     weight_chart selected_date body
     = inr (no_data_figure "No Weight Data Available")) /\
  (forall body, contains "spo2-intraday" body = inr false ->
     spo2_chart selected_date body
     = inr (no_data_figure "No SPO2 Data Available")) /\
  (forall n_clicks token evs fig_hr fig_steps fig_weight fig_spo2
          fig_activity fig_sleep flag,
     fetch_fitbit_data api set_order n_clicks (Some token) (Some selected_date)
     = ([OFig fig_hr; OFig fig_steps; OFig fig_weight; OFig fig_spo2;
         OFig fig_activity; OFig fig_sleep; OBool flag], evs) ->
     (forall body,
        answers (url_steps selected_date) ("Bearer " +:+ token) body ->
        contains "activities-steps-intraday" body = inr false ->
        fig_steps = no_data_figure "No Steps Data Available") /\
     (forall body,
        answers (url_weight selected_date) ("Bearer " +:+ token) body ->
        contains "weight-intraday" body = inr false ->
        fig_weight = no_data_figure "No Weight Data Available") /\
     (forall body,
        answers (url_spo2 selected_date) ("Bearer " +:+ token) body ->
        contains "spo2-intraday" body = inr false ->
        fig_spo2 = no_data_figure "No SPO2 Data Available")) /\
  (forall body, keyless_scalar body = true ->
     steps_chart selected_date body = inl TypeError /\
     weight_chart selected_date body = inl TypeError /\
     spo2_chart selected_date body = inl TypeError).
Proof.
  assert (Hsteps : forall body,
            contains "activities-steps-intraday" body = inr false ->
            steps_chart selected_date body
            = inr (no_data_figure "No Steps Data Available")).
  { intros body H. unfold steps_chart, guarded_series. rewrite H. reflexivity. }
  assert (Hweight : forall body, contains "weight-intraday" body = inr false ->
            weight_chart selected_date body
            = inr (no_data_figure "No Weight Data Available")).
  { intros body H. unfold weight_chart, guarded_series. rewrite H. reflexivity. }
  assert (Hspo2 : forall body, contains "spo2-intraday" body = inr false ->
            spo2_chart selected_date body
            = inr (no_data_figure "No SPO2 Data Available")).
  { intros body H. unfold spo2_chart, guarded_series. rewrite H. reflexivity. }
  split; [intros key kvs H; unfold contains; rewrite H; reflexivity|].
  split; [intros key l H; unfold contains; rewrite H; reflexivity|].
  split; [intros key str H; unfold contains; rewrite H; reflexivity|].
  split; [exact Hsteps|]. split; [exact Hweight|]. split; [exact Hspo2|].
  split.
  - intros n_clicks token evs f1 f2 f3 f4 f5 f6 flag Hrun.
    unfold fetch_fitbit_data in Hrun.
    destruct (missing (Some token) || missing (Some selected_date));
      [discriminate|].
    destruct (pipeline api set_order token selected_date) as [evs' [e|out]] eqn:Hp;
      [discriminate|].
    injection Hrun as -> ->.
    apply pipeline_inr in Hp. cbv zeta in Hp.
    destruct Hp as (hr & steps & sleep & activity & weight & spo2 & st & g1 & g2
                    & g6 & g5 & g3 & g4 & _ & A2 & _ & _ & A5 & A6 & _ & C2 & _
                    & _ & _ & C5 & C6 & Hout & _).
    injection Hout as -> -> -> -> -> -> ->.
    repeat split; intros body Hans Hkey.
    + rewrite (answers_functional _ _ _ _ A2 Hans), (Hsteps _ Hkey) in C2.
      injection C2 as <-. reflexivity.
    + rewrite (answers_functional _ _ _ _ A5 Hans), (Hweight _ Hkey) in C5.
      injection C5 as <-. reflexivity.
    + rewrite (answers_functional _ _ _ _ A6 Hans), (Hspo2 _ Hkey) in C6.
      injection C6 as <-. reflexivity.
  - intros body H. destruct body; try discriminate H; repeat split; reflexivity.
Qed.

End Facts.

Import Fixture.

Lemma missing_input_short_circuits_witness :
  (missing (Some EmptyString) = true \/ missing (Some day) = true) /\
  fetch_fitbit_data api_ok insertion_order 1 (Some EmptyString) (Some day)
  = ([OFig new_figure; OBool true], []).
Proof.
  split; [left; reflexivity|].
  apply (missing_input_short_circuits api_ok insertion_order 1
           (Some EmptyString) (Some day)).
  left; reflexivity.
Defined.

(** C4: submissions with an empty token, without a token and without a
    date.  The callback sends no request, and it returns at line 72 a tuple
    of two values, one blank figure and the flag True, where its seven
    declared outputs call for six blank figures and the flag. *)
Theorem missing_input_returns_two_values :
  let empty_token :=
    fetch_fitbit_data api_ok insertion_order 1 (Some EmptyString) (Some day) in
  let no_token := fetch_fitbit_data api_ok insertion_order 1 None (Some day) in
  let no_date := fetch_fitbit_data api_ok insertion_order 1 (Some token) None in
  empty_token = ([OFig new_figure; OBool true], []) /\
  no_token = ([OFig new_figure; OBool true], []) /\
  no_date = ([OFig new_figure; OBool true], []) /\
  length (fst empty_token) = 2%nat /\
  length callback_outputs = 7%nat /\
  length six_blank_and_flag = 7%nat /\
  fst empty_token <> six_blank_and_flag.
Proof.
  cbv zeta. repeat split; try (vm_compute; reflexivity).
  vm_compute. discriminate.
Qed.

Lemma requests_follow_fixed_order_witness :
  let api := api_with (ok hr_body) (ok steps_body) (Some (MkResponse 500 None))
               (ok activity_body) (ok weight_body) (ok spo2_body) in
  let evs := snd (fetch_fitbit_data api insertion_order 1 (Some token) (Some day)) in
  api (url_sleep day) "Bearer tok" = Some (MkResponse 500 None) /\
  requests evs = firstn 3 (planned token day) /\
  length (requests evs) = 3%nat /\
  requests (snd (fetch_fitbit_data api_ok insertion_order 1 (Some token) (Some day)))
    !! 5%nat
  = Some (url_spo2 day, "Bearer tok").
Proof.
  cbv zeta. split; [vm_compute; reflexivity|]. split; [vm_compute; reflexivity|].
  split.
  - set (api := api_with (ok hr_body) (ok steps_body) (Some (MkResponse 500 None))
                  (ok activity_body) (ok weight_body) (ok spo2_body)).
    destruct (requests_follow_fixed_order api insertion_order 1 (Some token) (Some day))
      as (_ & Hstop & _).
    apply (Hstop 2%nat (url_sleep day) "Bearer tok" (MkResponse 500 None)).
    + vm_compute. reflexivity.
    + vm_compute. reflexivity.
    + cbn. lia.
  - destruct (requests_follow_fixed_order api_ok insertion_order 1 (Some token)
                (Some day)) as (_ & _ & _ & _ & Hnext).
    rewrite (Hnext 4%nat (url_weight day) "Bearer tok" weight_body
               (MkFigure [Scatter [JStr "07:30:00"] [JInt 72] "lines" (JStr "Weight") None]
                  (Layout (Some "weight on 2025-06-01") (Some "Time")
                     (Some "Weight") None))).
    + reflexivity.
    + vm_compute. reflexivity.
    + eexists. repeat split; vm_compute; reflexivity.
    + vm_compute. reflexivity.
Defined.

(** C1: the sleep request is answered with status 500 while the other five
    would succeed.  The callback returns a tuple of two values, one blank
    figure and the flag, where its seven declared outputs and the claim call
    for six blank figures and the flag. *)
Theorem failed_request_returns_two_values :
  let api := api_with (ok hr_body) (ok steps_body) (Some (MkResponse 500 None))
               (ok activity_body) (ok weight_body) (ok spo2_body) in
  let out := fst (fetch_fitbit_data api insertion_order 1 (Some token) (Some day)) in
  fetch_fitbit_data api insertion_order 1 (Some token) (Some day)
  = ([OFig new_figure; OBool true],
     [Get (url_heart day) "Bearer tok"; Get (url_steps day) "Bearer tok";
      Get (url_sleep day) "Bearer tok";
      PrintError (Raised "Sleep data request failed")]) /\
  length out = 2%nat /\
  length callback_outputs = 7%nat /\
  length six_blank_and_flag = 7%nat /\
  out <> six_blank_and_flag.
Proof.
  cbv zeta. split; [vm_compute; reflexivity|].
  repeat split; try (vm_compute; reflexivity).
  vm_compute. discriminate.
Qed.

(** C2: a heart-rate answer with status 200 and an empty dataset.  The
    [else] branch of line 105 updates a figure that was never created, the
    exception is caught, and the callback returns its failure tuple after
    one request.  A heart-rate body without the key raises as well, and so
    does an activity body whose summary is empty or absent; the steps,
    weight, blood-oxygen and sleep branches create their figure first and
    produce the no-data chart. *)
Theorem empty_heart_series_fails :
  let api := api_with (ok (intraday "activities-heart-intraday" []))
               (ok steps_body) (ok sleep_body) (ok activity_body)
               (ok weight_body) (ok spo2_body) in
  heart_chart day (intraday "activities-heart-intraday" [])
  = inl (UnboundLocalError "fig_hr") /\
  fetch_fitbit_data api insertion_order 1 (Some token) (Some day)
  = (failure_output,
     [Get (url_heart day) "Bearer tok"; PrintError (UnboundLocalError "fig_hr")]) /\
  heart_chart day (JObj []) = inl (KeyError "activities-heart-intraday") /\
  activity_chart day (JObj [("summary", JObj [])])
  = inl (UnboundLocalError "fig_activity") /\
  activity_chart day (JObj []) = inl (UnboundLocalError "fig_activity") /\
  steps_chart day (intraday "activities-steps-intraday" [])
  = inr (no_data_figure "No Steps Data Available") /\
  weight_chart day (intraday "weight-intraday" [])
  = inr (no_data_figure "No Weight Data Available") /\
  spo2_chart day (intraday "spo2-intraday" [])
  = inr (no_data_figure "No SPO2 Data Available") /\
  (forall order, sleep_chart order day []
                 = inr (no_data_figure "No Sleep Data Available")).
Proof.
  cbv zeta. repeat split; try (vm_compute; reflexivity).
Qed.

(** C5, the claim as stated fails on a summary that is present and empty: it
    lacks all four fields, no bar is charted, and the callback returns its
    failure tuple. *)
Lemma empty_summary_is_not_charted :
  let activity := JObj [("summary", JObj [])] in
  let api := api_with (ok hr_body) (ok steps_body) (ok sleep_body) (ok activity)
               (ok weight_body) (ok spo2_body) in
  get activity "summary" (JObj []) = inr (JObj []) /\
  activity_chart day activity = inl (UnboundLocalError "fig_activity") /\
  fetch_fitbit_data api insertion_order 1 (Some token) (Some day)
  = (failure_output,
     [Get (url_heart day) "Bearer tok"; Get (url_steps day) "Bearer tok";
      Get (url_sleep day) "Bearer tok"; Get (url_activity day) "Bearer tok";
      PrintError (UnboundLocalError "fig_activity")]).
Proof.
  cbv zeta. repeat split; vm_compute; reflexivity.
Qed.

Lemma missing_activity_field_charts_zero_witness :
  get activity_body "summary" (JObj [])
  = inr (JObj [("sedentaryMinutes", JInt 600); ("lightlyActiveMinutes", JInt 200);
               ("veryActiveMinutes", JInt 30)]) /\
  activity_chart day activity_body
  = inr (MkFigure
           [Bar [JStr "Sedentary"; JStr "Light"; JStr "Moderate"; JStr "Vigorous"]
                [JInt 600; JInt 200; JInt 0; JInt 30] "green"]
           (Layout (Some "Activity Minutes on 2025-06-01")
                   (Some "Activity Type") (Some "Minutes") None)) /\
  fst (fetch_fitbit_data api_ok insertion_order 1 (Some token) (Some day)) !! 4%nat
  = Some (OFig (MkFigure
           [Bar [JStr "Sedentary"; JStr "Light"; JStr "Moderate"; JStr "Vigorous"]
                [JInt 600; JInt 200; JInt 0; JInt 30] "green"]
           (Layout (Some "Activity Minutes on 2025-06-01")
                   (Some "Activity Type") (Some "Minutes") None))).
Proof.
  split; [reflexivity|]. split; [|vm_compute; reflexivity].
  apply (missing_activity_field_charts_zero day activity_body
           [("sedentaryMinutes", JInt 600); ("lightlyActiveMinutes", JInt 200);
            ("veryActiveMinutes", JInt 30)]).
  - reflexivity.
  - discriminate.
Defined.

Lemma absent_key_gives_no_data_chart_witness :
  let api := api_with (ok hr_body) (ok (JObj [])) (ok sleep_body)
               (ok activity_body) (ok (JObj [("weight", JList [])]))
               (ok (JList [])) in
  steps_chart day (JObj []) = inr (no_data_figure "No Steps Data Available") /\
  weight_chart day (JObj [("weight", JList [])])
  = inr (no_data_figure "No Weight Data Available") /\
  spo2_chart day (JList []) = inr (no_data_figure "No SPO2 Data Available") /\
  firstn 3 (skipn 1 (fst (fetch_fitbit_data api insertion_order 1
                            (Some token) (Some day))))
  = [OFig (no_data_figure "No Steps Data Available");
     OFig (no_data_figure "No Weight Data Available");
     OFig (no_data_figure "No SPO2 Data Available")].
Proof.
  cbv zeta.
  destruct (absent_key_gives_no_data_chart api_ok insertion_order day)
    as (Hobj & Hlist & _ & Hsteps & Hweight & Hspo2 & _).
  split; [apply Hsteps, Hobj; reflexivity|].
  split; [apply Hweight, Hobj; reflexivity|].
  split; [apply Hspo2, Hlist; reflexivity|].
  vm_compute. reflexivity.
Defined.

(** C10, the claim as stated fails on a body that is [null]: it has no
    top-level key, the membership test of line 113 raises TypeError, and the
    callback returns its failure tuple instead of a no-data chart. *)
Lemma null_body_raises :
  let api := api_with (ok hr_body) (ok JNull) (ok sleep_body) (ok activity_body)
               (ok weight_body) (ok spo2_body) in
  contains "activities-steps-intraday" JNull = inl TypeError /\
  steps_chart day JNull = inl TypeError /\
  weight_chart day (JInt 0) = inl TypeError /\
  spo2_chart day (JBool false) = inl TypeError /\
  fetch_fitbit_data api insertion_order 1 (Some token) (Some day)
  = (failure_output,
     [Get (url_heart day) "Bearer tok"; Get (url_steps day) "Bearer tok";
      PrintError TypeError]).
Proof.
  cbv zeta. repeat split; vm_compute; reflexivity.
Qed.

(** ** The sleep reduction *)

Section Sleep.

Lemma rbind_inr {A B} (r : res A) (f : A -> res B) b :
  rbind r f = inr b -> exists a, r = inr a /\ f a = inr b.
Proof. destruct r as [e|a]; [discriminate|]. intros H. exists a. auto. Qed.

Lemma rfold_app {A B} (f : A -> B -> res A) acc l1 l2 :
  rfold f acc (l1 ++ l2) = rbind (rfold f acc l1) (fun a => rfold f a l2).
Proof.
  revert acc. induction l1 as [|x l1 IH]; intros acc; [reflexivity|].
  cbn [app rfold]. destruct (f acc x) as [e|a]; [reflexivity|]. apply IH.
Qed.

Lemma not_main_skipped st record :
  not_main record -> sleep_record st record = inr st.
Proof.
  intros (flag & Hget & Hflag). unfold sleep_record.
  rewrite Hget. cbn [rbind]. rewrite Hflag. reflexivity.
Qed.

(** The minutes written depend on the keys of [sleep_stages] only, and the
    keys stay. *)
Lemma stage_minutes_keys summary st st' :
  rmap (stage_minutes summary) st = inr st' -> map fst st' = map fst st.
Proof.
  revert st'. induction st as [|entry st IH]; intros st'; cbn [rmap].
  - intros [= <-]. reflexivity.
  - intros H. apply rbind_inr in H as (e' & He & H).
    apply rbind_inr in H as (st1 & Hst & H). injection H as <-.
    cbn [map]. rewrite (IH _ Hst). f_equal.
    unfold stage_minutes in He.
    apply rbind_inr in He as (dflt & _ & He).
    apply rbind_inr in He as (m & _ & He). injection He as <-. reflexivity.
Qed.

Lemma stage_minutes_same_keys summary st1 st2 :
  map fst st1 = map fst st2 ->
  rmap (stage_minutes summary) st1 = rmap (stage_minutes summary) st2.
Proof.
  revert st2. induction st1 as [|e1 st1 IH]; intros [|e2 st2]; try discriminate.
  - reflexivity.
  - cbn [map]. intros [= Hk Hks]. cbn [rmap].
    unfold stage_minutes at 1 3. rewrite Hk, (IH _ Hks). reflexivity.
Qed.

Lemma last_nonempty {A} (b d d' : A) l :
  List.last (b :: l) d = List.last (b :: l) d'.
Proof.
  revert b. induction l as [|c l IH]; intros b; [reflexivity|].
  change (List.last (c :: l) d = List.last (c :: l) d'). apply IH.
Qed.

Lemma last_cons {A} (a d : A) l : List.last (a :: l) d = List.last l a.
Proof.
  destruct l as [|b l]; [reflexivity|].
  change (List.last (b :: l) d = List.last (b :: l) a). apply last_nonempty.
Qed.

(** The loop of lines 135-143 from any state whose keys are the four stages:
    the points of the main records are appended in order, and the minutes are
    those of the last main record. *)
Lemma sleep_loop records : forall st0 ser0 stages series,
  map fst st0 = map fst initial_sleep_stages ->
  rfold sleep_record (st0, ser0) records = inr (stages, series) ->
  exists contributions,
    rmap contribution (List.filter is_main records) = inr contributions /\
    series = ser0 ++ concat (map snd contributions) /\
    stages = List.last (map fst contributions) st0.
Proof.
  induction records as [|r records IH]; intros st0 ser0 stages series Hkeys.
  - cbn [rfold]. intros [= <- <-]. exists []. cbn. rewrite app_nil_r. auto.
  - cbn [rfold]. intros H. apply rbind_inr in H as ([st1 ser1] & Hrec & Hrest).
    unfold sleep_record in Hrec. cbn [fst snd] in Hrec.
    apply rbind_inr in Hrec as (flag & Hflag & Hrec).
    cbn [List.filter]. unfold is_main at 1. rewrite Hflag.
    destruct (truthy flag).
    + apply rbind_inr in Hrec as (levels & Hlevels & Hrec).
      apply rbind_inr in Hrec as (summary & Hsummary & Hrec).
      apply rbind_inr in Hrec as (stages1 & Hstages & Hrec).
      apply rbind_inr in Hrec as (levels' & Hlevels' & Hrec).
      apply rbind_inr in Hrec as (data & Hdata & Hrec).
      apply rbind_inr in Hrec as (points & Hpoints & Hrec).
      apply rbind_inr in Hrec as (new & Hnew & Hrec).
      injection Hrec as <- <-.
      assert (Hkeys1 : map fst stages1 = map fst initial_sleep_stages).
      { rewrite (stage_minutes_keys _ _ _ Hstages). exact Hkeys. }
      destruct (IH _ _ _ _ Hkeys1 Hrest) as (cs & Hcs & Hser & Hst).
      exists ((stages1, new) :: cs). split; [|split].
      * cbn [rmap]. unfold contribution at 1, record_stages, record_points.
        rewrite Hlevels. cbn [rbind]. rewrite Hsummary. cbn [rbind].
        rewrite <- (stage_minutes_same_keys summary _ _ Hkeys), Hstages.
        cbn [rbind]. rewrite Hlevels' in Hlevels. injection Hlevels as ->.
        rewrite Hdata. cbn [rbind]. rewrite Hpoints. cbn [rbind].
        rewrite Hnew. cbn [rbind]. rewrite Hcs. reflexivity.
      * rewrite Hser. cbn [map snd concat]. rewrite app_assoc. reflexivity.
      * rewrite Hst. cbn [map fst]. rewrite last_cons. reflexivity.
    + injection Hrec as <- <-. eapply IH; eassumption.
Qed.

(** C3, as amended: a record that is not a main sleep is ignored entirely;
    the points of the main records are flattened into one list in the order
    of the response (nothing sorts them); the minutes per stage are those of
    the last main record, each main record overwriting the four values, and
    stay 0 when there is none. *)
Theorem sleep_reduce_keeps_main_records sleep_data :
  (forall before record after other,
      get sleep_data "sleep" (JList []) = inr (JList (before ++ record :: after)) ->
      get other "sleep" (JList []) = inr (JList (before ++ after)) ->
      not_main record ->
      sleep_reduce sleep_data = sleep_reduce other) /\
  (forall records stages series,
      get sleep_data "sleep" (JList []) = inr (JList records) ->
      sleep_reduce sleep_data = inr (stages, series) ->
      exists contributions,
        rmap contribution (List.filter is_main records) = inr contributions /\
        series = concat (map snd contributions) /\
        stages = List.last (map fst contributions) initial_sleep_stages).
Proof.
  split.
  - intros before record after other H1 H2 Hnot. unfold sleep_reduce.
    rewrite H1, H2. cbn [rbind iter].
    rewrite !rfold_app. destruct (rfold sleep_record _ before) as [e|st];
      [reflexivity|].
    cbn [rbind rfold]. rewrite (not_main_skipped _ _ Hnot). reflexivity.
  - intros records stages series Hget. unfold sleep_reduce.
    rewrite Hget. cbn [rbind iter]. intros H.
    apply sleep_loop in H; [|reflexivity]. exact H.
Qed.

End Sleep.

(** C3, the claim as stated fails on two main records: the minutes of the
    second replace those of the first instead of adding to them, and the
    points keep the order of the response, here 05:00 before 01:00. *)
Lemma two_main_records_overwrite :
  let early := sleep_rec true (JObj [("deep", minutes 10)])
                 [stage_point "2025-06-01T05:00:00" "deep"] in
  let late := sleep_rec true (JObj [("deep", minutes 20)])
                [stage_point "2025-06-01T01:00:00" "light"] in
  sleep_reduce (JObj [("sleep", JList [early; late])])
  = inr ([("deep", JInt 20); ("light", JInt 0); ("rem", JInt 0); ("wake", JInt 0)],
         [(JStr "2025-06-01T05:00:00", JStr "deep");
          (JStr "2025-06-01T01:00:00", JStr "light")]) /\
  JInt 20 <> JInt (10 + 20).
Proof.
  cbv zeta. split; [vm_compute; reflexivity|discriminate].
Qed.

Lemma sleep_reduce_keeps_main_records_witness :
  not_main nap /\
  sleep_reduce sleep_body = sleep_reduce (JObj [("sleep", JList [night])]) /\
  sleep_reduce sleep_body
  = inr ([("deep", JInt 50); ("light", JInt 200); ("rem", JInt 80);
          ("wake", JInt 30)],
         [(JStr "2025-06-01T00:10:00", JStr "light");
          (JStr "2025-06-01T01:00:00", JStr "deep");
          (JStr "2025-06-01T02:00:00", JStr "light")]) /\
  exists contributions,
    rmap contribution (List.filter is_main [night; nap]) = inr contributions /\
    map snd contributions
    = [[(JStr "2025-06-01T00:10:00", JStr "light");
        (JStr "2025-06-01T01:00:00", JStr "deep");
        (JStr "2025-06-01T02:00:00", JStr "light")]].
Proof.
  assert (Hnap : not_main nap).
  { exists (JBool false). split; reflexivity. }
  destruct (sleep_reduce_keeps_main_records sleep_body) as [Hskip Hshape].
  split; [exact Hnap|]. split; [|split].
  - apply (Hskip [night] nap [] (JObj [("sleep", JList [night])]));
      [reflexivity|reflexivity|exact Hnap].
  - vm_compute. reflexivity.
  - destruct (Hshape [night; nap] _ _ eq_refl eq_refl) as (cs & Hcs & Hser & _).
    exists cs. split; [exact Hcs|].
    vm_compute in Hcs. injection Hcs as <-. reflexivity.
Defined.

(** ** The summaries of the sleep records *)

Section Summaries.

Lemma dict_get_map_value_same k f kvs :
  dict_get k (map_value k f kvs) = option_map f (dict_get k kvs).
Proof.
  induction kvs as [|[k' v] kvs IH]; [reflexivity|].
  cbn [map_value map dict_get fst snd].
  destruct (String.eqb k k') eqn:E; cbn [dict_get]; rewrite E; [reflexivity|].
  exact IH.
Qed.

Lemma dict_get_map_value_other k k' f kvs :
  String.eqb k' k = false ->
  dict_get k (map_value k' f kvs) = dict_get k kvs.
Proof.
  intros Hne. induction kvs as [|[k0 v] kvs IH]; [reflexivity|].
  cbn [map_value map dict_get fst snd].
  destruct (String.eqb k' k0) eqn:E; cbn [dict_get].
  - apply String.eqb_eq in E as <-. rewrite String.eqb_sym, Hne. exact IH.
  - destruct (String.eqb k k0); [reflexivity|exact IH].
Qed.

Lemma dict_get_remove_same k kvs : dict_get k (dict_remove k kvs) = None.
Proof.
  induction kvs as [|[k' v] kvs IH]; [reflexivity|].
  cbn [dict_remove List.filter fst]. destruct (String.eqb k k') eqn:E; cbn [negb].
  - exact IH.
  - cbn [dict_get]. rewrite E. exact IH.
Qed.

Lemma dict_get_remove_other k k' kvs :
  String.eqb k' k = false ->
  dict_get k (dict_remove k' kvs) = dict_get k kvs.
Proof.
  intros Hne. induction kvs as [|[k0 v] kvs IH]; [reflexivity|].
  cbn [dict_remove List.filter fst]. destruct (String.eqb k' k0) eqn:E; cbn [negb].
  - apply String.eqb_eq in E as <-. cbn [dict_get].
    rewrite String.eqb_sym, Hne. exact IH.
  - cbn [dict_get]. destruct (String.eqb k k0); [reflexivity|exact IH].
Qed.

(** Without a summary every stage reads 0 minutes, and nothing is raised. *)
Lemma stage_minutes_no_summary st :
  rmap (stage_minutes (JObj [])) st = inr (map (fun e => (fst e, JInt 0)) st).
Proof.
  induction st as [|e st IH]; [reflexivity|].
  cbn [rmap map]. rewrite IH. reflexivity.
Qed.

(** One pass of the loop on a record and on the same record without its
    summary: the points appended are the same. *)
Lemma sleep_record_without_summary st ser record st1 ser1 st' :
  sleep_record (st, ser) record = inr (st1, ser1) ->
  exists st1',
    sleep_record (st', ser) (without_summary record) = inr (st1', ser1).
Proof.
  unfold sleep_record. cbn [fst snd]. intros H.
  apply rbind_inr in H as (flag & Hflag & H).
  destruct record as [| | | |l|kvs]; try discriminate.
  cbn [without_summary get] in *.
  rewrite dict_get_map_value_other by reflexivity.
  injection Hflag as ->. cbn [rbind].
  destruct (truthy _); [|injection H as <- <-; eauto].
  rewrite dict_get_map_value_same.
  apply rbind_inr in H as (levels & Hlevels & H). injection Hlevels as <-.
  apply rbind_inr in H as (summary & Hsummary & H).
  apply rbind_inr in H as (stages1 & _ & H).
  apply rbind_inr in H as (levels' & Hlevels' & H). injection Hlevels' as <-.
  apply rbind_inr in H as (data & Hdata & H).
  apply rbind_inr in H as (points & Hpoints & H).
  apply rbind_inr in H as (new & Hnew & H). injection H as <- <-.
  assert (Hdrop : default (JObj []) (option_map drop_summary (dict_get "levels" kvs))
                  = drop_summary (default (JObj []) (dict_get "levels" kvs))).
  { destruct (dict_get "levels" kvs); reflexivity. }
  rewrite Hdrop.
  destruct (default (JObj []) (dict_get "levels" kvs)) as [| | | |l|lv];
    try discriminate.
  cbn [drop_summary get] in *. rewrite dict_get_remove_same. cbn [default rbind].
  rewrite stage_minutes_no_summary. cbn [rbind].
  rewrite dict_get_remove_other by reflexivity.
  injection Hdata as ->. rewrite Hpoints. cbn [rbind]. rewrite Hnew.
  cbn [rbind]. eauto.
Qed.

Lemma sleep_loop_without_summaries records : forall st ser st1 ser1 st',
  rfold sleep_record (st, ser) records = inr (st1, ser1) ->
  exists st1',
    rfold sleep_record (st', ser) (map without_summary records) = inr (st1', ser1).
Proof.
  induction records as [|r records IH]; intros st ser st1 ser1 st'; cbn [rfold map].
  - intros [= <- <-]. eauto.
  - intros H. apply rbind_inr in H as ([st2 ser2] & Hrec & Hrest).
    destruct (sleep_record_without_summary _ _ _ _ _ st' Hrec) as (st2' & ->).
    cbn [rbind]. eapply IH. exact Hrest.
Qed.

Lemma without_summary_key k : without_summary (JStr k) = JStr k.
Proof. reflexivity. Qed.

(** The series of a response is that of the response without summaries. *)
Lemma sleep_reduce_without_summaries sleep_data st :
  sleep_reduce sleep_data = inr st ->
  exists st', sleep_reduce (without_summaries sleep_data) = inr st' /\
              snd st' = snd st.
Proof.
  unfold sleep_reduce. intros H.
  apply rbind_inr in H as (recs & Hrecs & H).
  apply rbind_inr in H as (records & Hiter & H).
  destruct sleep_data as [| | | |l|kvs]; try discriminate.
  cbn [without_summaries get] in *. rewrite dict_get_map_value_same.
  injection Hrecs as <-.
  assert (Hrecs' : default (JList [])
                     (option_map (map_records without_summary) (dict_get "sleep" kvs))
                   = map_records without_summary
                       (default (JList []) (dict_get "sleep" kvs))).
  { destruct (dict_get "sleep" kvs); reflexivity. }
  rewrite Hrecs'. cbn [rbind].
  assert (Hiter' : iter (map_records without_summary
                           (default (JList []) (dict_get "sleep" kvs)))
                   = inr (map without_summary records)).
  { destruct (default (JList []) (dict_get "sleep" kvs)) as [| | |s|l|kv];
      try discriminate; cbn [map_records iter] in *; injection Hiter as <-.
    - rewrite map_map. reflexivity.
    - reflexivity.
    - rewrite map_map. reflexivity. }
  rewrite Hiter'. cbn [rbind]. destruct st as [st1 ser1].
  destruct (sleep_loop_without_summaries _ _ _ _ _ initial_sleep_stages H)
    as (st1' & Hst1').
  exists (st1', ser1). split; [exact Hst1'|reflexivity].
Qed.

Lemma series_ignores_summaries s1 s2 st1 st2 :
  without_summaries s1 = without_summaries s2 ->
  sleep_reduce s1 = inr st1 -> sleep_reduce s2 = inr st2 ->
  snd st1 = snd st2.
Proof.
  intros Heq H1 H2.
  apply sleep_reduce_without_summaries in H1 as (st1' & H1 & <-).
  apply sleep_reduce_without_summaries in H2 as (st2' & H2 & <-).
  rewrite Heq in H1. rewrite H1 in H2. injection H2 as <-. reflexivity.
Qed.

End Summaries.

(** ** Two runs of the callback side by side *)

Section TwoRuns.

Lemma url_sleep_differs d :
  url_heart d <> url_sleep d /\ url_steps d <> url_sleep d /\
  url_activity d <> url_sleep d /\ url_weight d <> url_sleep d /\
  url_spo2 d <> url_sleep d.
Proof.
  unfold url_heart, url_steps, url_activity, url_weight, url_spo2, url_sleep,
    base_url.
  repeat split; cbn [String.append]; discriminate.
Qed.

Lemma fetched_ext api1 api2 url auth msg :
  api1 url auth = api2 url auth ->
  Obs.fetched api1 url auth msg = Obs.fetched api2 url auth msg.
Proof. intros H. unfold Obs.fetched, fetch. cbn [snd]. rewrite H. reflexivity. Qed.

Lemma under_get {A} (e : event) (x y : M A) :
  x = y -> (let (evs, r) := x in (e :: evs, r)) = (let (evs, r) := y in (e :: evs, r)).
Proof. intros ->. reflexivity. Qed.

Ltac same_fetch api1 api2 Hext :=
  rewrite (bind_fetch api1), (bind_fetch api2), Hext;
  match goal with
  | |- context [Obs.fetched api2 ?u ?a ?m] =>
      destruct (Obs.fetched api2 u a m); [reflexivity|]
  end;
  apply under_get.

Ltac same_lift :=
  rewrite !bind_lift;
  match goal with
  | |- match ?r with inl _ => _ | inr _ => _ end = _ =>
      destruct r; [reflexivity|]
  end.

(** C8, as amended: two sleep answers that differ in the [levels.summary]
    of their records only, and on both of which the loop of lines 135-143
    raises nothing, give the same seven outputs and the same events.  (The
    loop raises on a main record whose summary, or one of its four stage
    entries, is not an object.) *)
Theorem summaries_do_not_reach_output api1 api2 set_order n_clicks
    token selected_date s1 s2 :
  (forall url, url <> url_sleep selected_date ->
     api1 url ("Bearer " +:+ token) = api2 url ("Bearer " +:+ token)) ->
  Obs.answers api1 (url_sleep selected_date) ("Bearer " +:+ token) s1 ->
  Obs.answers api2 (url_sleep selected_date) ("Bearer " +:+ token) s2 ->
  without_summaries s1 = without_summaries s2 ->
  (exists st, sleep_reduce s1 = inr st) ->
  (exists st, sleep_reduce s2 = inr st) ->
  fetch_fitbit_data api1 set_order n_clicks (Some token) (Some selected_date)
  = fetch_fitbit_data api2 set_order n_clicks (Some token) (Some selected_date).
Proof.
  intros Hagree A1 A2 Hsame [st1 H1] [st2 H2].
  destruct (url_sleep_differs selected_date) as (N1 & N2 & N4 & N5 & N6).
  unfold fetch_fitbit_data.
  destruct (missing (Some token) || missing (Some selected_date)); [reflexivity|].
  cut (pipeline api1 set_order token selected_date
       = pipeline api2 set_order token selected_date); [intros ->; reflexivity|].
  unfold pipeline. cbv zeta.
  same_fetch api1 api2 (fetched_ext api1 api2 _ _ "Heart rate request failed"
                          (Hagree _ N1)).
  same_lift.
  same_fetch api1 api2 (fetched_ext api1 api2 _ _ "Steps request failed"
                          (Hagree _ N2)).
  same_lift.
  rewrite (bind_fetch api1), (bind_fetch api2).
  rewrite (answers_fetched api1 _ _ _ _ A1), (answers_fetched api2 _ _ _ _ A2).
  apply under_get. rewrite !bind_lift, H1, H2.
  rewrite (series_ignores_summaries _ _ _ _ Hsame H1 H2).
  same_lift.
  same_fetch api1 api2 (fetched_ext api1 api2 _ _ "Activity request failed"
                          (Hagree _ N4)).
  same_lift.
  same_fetch api1 api2 (fetched_ext api1 api2 _ _ "Weight request failed"
                          (Hagree _ N5)).
  same_lift.
  same_fetch api1 api2 (fetched_ext api1 api2 _ _ "SPO2 request failed"
                          (Hagree _ N6)).
  same_lift.
  reflexivity.
Qed.

Lemma same_output_refl o : same_output o o.
Proof. destruct o; cbn; [split|]; reflexivity. Qed.

Lemma same_but_trace_order_refl out : same_but_trace_order out out.
Proof.
  repeat split. induction out; constructor; auto using same_output_refl.
Qed.

Lemma fold_add_trace {A} (g : A -> trace) l fig :
  fold_left (fun fig x => add_trace fig (g x)) l fig
  = MkFigure (data fig ++ map g l) (fig_layout fig).
Proof.
  revert fig. induction l as [|x l IH]; intros fig; cbn [fold_left map].
  - rewrite app_nil_r. destruct fig; reflexivity.
  - rewrite IH. unfold add_trace. cbn [data fig_layout].
    rewrite <- app_assoc. reflexivity.
Qed.

(** The sleep chart under two iteration orders: the same exception, or two
    figures with the same layout and the same traces in some order. *)
Lemma sleep_chart_orders so1 so2 d series :
  valid_order so1 -> valid_order so2 ->
  match sleep_chart so1 d series, sleep_chart so2 d series with
  | inl e1, inl e2 => e1 = e2
  | inr f1, inr f2 => same_chart f1 f2
  | _, _ => False
  end.
Proof.
  intros V1 V2. unfold sleep_chart, py_set.
  destruct series as [|p series]; [split; reflexivity|].
  destruct (forallb hashable (map snd (p :: series))); [|reflexivity].
  cbn [rbind]. rewrite !fold_add_trace.
  split; [reflexivity|]. cbn [update_layout data new_figure app].
  apply Permutation_map. unfold valid_order in V1, V2.
  rewrite V1, V2. reflexivity.
Qed.

Lemma same_run_refl m : same_run m m.
Proof.
  split; [reflexivity|].
  destruct (snd m); [reflexivity|apply same_but_trace_order_refl].
Qed.

Lemma same_run_under_get e (x y : M (list output)) :
  same_run x y ->
  same_run (let (evs, r) := x in (e :: evs, r)) (let (evs, r) := y in (e :: evs, r)).
Proof.
  destruct x as [ex rx], y as [ey ry]. unfold same_run. cbn [fst snd].
  intros [-> H]. split; [reflexivity|exact H].
Qed.

Ltac step_fetch api :=
  rewrite !(bind_fetch api);
  match goal with
  | |- context [Obs.fetched api ?u ?a ?m] =>
      destruct (Obs.fetched api u a m); [apply same_run_refl|]
  end;
  apply same_run_under_get.

Ltac step_lift :=
  rewrite !bind_lift;
  match goal with
  | |- same_run (match ?r with inl _ => _ | inr _ => _ end) _ =>
      destruct r; [apply same_run_refl|]
  end.

Lemma pipeline_orders api so1 so2 token selected_date :
  valid_order so1 -> valid_order so2 ->
  same_run (pipeline api so1 token selected_date)
           (pipeline api so2 token selected_date).
Proof.
  intros V1 V2. unfold pipeline. cbv zeta.
  step_fetch api. step_lift. step_fetch api. step_lift.
  step_fetch api. step_lift.
  rewrite !bind_lift.
  match goal with
  | |- context [sleep_chart so1 ?d ?ser] =>
      pose proof (sleep_chart_orders so1 so2 d ser V1 V2) as Hsleep;
      destruct (sleep_chart so1 d ser) as [e1|f1],
               (sleep_chart so2 d ser) as [e2|f2];
      try contradiction
  end.
  { subst e2. apply same_run_refl. }
  rewrite !(bind_fetch api).
  match goal with
  | |- context [Obs.fetched api ?u ?a ?m] =>
      destruct (Obs.fetched api u a m); [apply same_run_refl|]
  end.
  apply same_run_under_get. step_lift.
  step_fetch api. step_lift. step_fetch api. step_lift.
  split; [reflexivity|]. cbn [snd ret].
  repeat split.
  repeat (constructor; [first [exact Hsleep | apply same_output_refl]|]).
  constructor.
Qed.

(** C7, as amended.  Under one iteration order of sets the callback is a
    function of the token, the date and the answers to its six requests: two
    APIs that answer those alike give the same result.  Under two iteration
    orders the events, the flag and five of the figures are the same, and
    the sleep figure has the same layout and the same traces, whose order is
    the one in which the set of stage labels is iterated. *)
Theorem deterministic_up_to_set_order n_clicks token selected_date :
  (forall api1 api2 set_order,
      (forall url auth, In (url, auth) (planned token selected_date) ->
                        api1 url auth = api2 url auth) ->
      fetch_fitbit_data api1 set_order n_clicks (Some token) (Some selected_date)
      = fetch_fitbit_data api2 set_order n_clicks (Some token) (Some selected_date)) /\
  (forall api so1 so2,
      valid_order so1 -> valid_order so2 ->
      let r1 := fetch_fitbit_data api so1 n_clicks (Some token) (Some selected_date) in
      let r2 := fetch_fitbit_data api so2 n_clicks (Some token) (Some selected_date) in
      snd r1 = snd r2 /\ same_but_trace_order (fst r1) (fst r2)).
Proof.
  split.
  - intros api1 api2 set_order Hagree. unfold fetch_fitbit_data.
    destruct (missing (Some token) || missing (Some selected_date)); [reflexivity|].
    cut (pipeline api1 set_order token selected_date
         = pipeline api2 set_order token selected_date); [intros ->; reflexivity|].
    assert (Hext : forall url msg,
               In (url, "Bearer " +:+ token) (planned token selected_date) ->
               Obs.fetched api1 url ("Bearer " +:+ token) msg
               = Obs.fetched api2 url ("Bearer " +:+ token) msg).
    { intros url msg Hin. apply fetched_ext, Hagree, Hin. }
    unfold planned in Hext. cbn [map In] in Hext.
    unfold pipeline. cbv zeta.
    same_fetch api1 api2 (Hext (url_heart selected_date)
                            "Heart rate request failed" ltac:(tauto)).
    same_lift.
    same_fetch api1 api2 (Hext (url_steps selected_date)
                            "Steps request failed" ltac:(tauto)).
    same_lift.
    same_fetch api1 api2 (Hext (url_sleep selected_date)
                            "Sleep data request failed" ltac:(tauto)).
    same_lift. same_lift.
    same_fetch api1 api2 (Hext (url_activity selected_date)
                            "Activity request failed" ltac:(tauto)).
    same_lift.
    same_fetch api1 api2 (Hext (url_weight selected_date)
                            "Weight request failed" ltac:(tauto)).
    same_lift.
    same_fetch api1 api2 (Hext (url_spo2 selected_date)
                            "SPO2 request failed" ltac:(tauto)).
    same_lift.
    reflexivity.
  - intros api so1 so2 V1 V2. cbv zeta. unfold fetch_fitbit_data.
    destruct (missing (Some token) || missing (Some selected_date));
      [split; [reflexivity|apply same_but_trace_order_refl]|].
    destruct (pipeline_orders api so1 so2 token selected_date V1 V2) as [Hev Hres].
    destruct (pipeline api so1 token selected_date) as [ev1 [e1|o1]],
             (pipeline api so2 token selected_date) as [ev2 [e2|o2]];
      cbn [fst snd] in *; try contradiction; subst ev2.
    + subst e2. split; [reflexivity|apply same_but_trace_order_refl].
    + split; [reflexivity|exact Hres].
Qed.

End TwoRuns.

(** C7, the claim as stated fails across hash seeds: the same token, date
    and answers give sleep figures whose traces come in the order in which
    the set of stage labels is iterated. *)
Lemma set_order_changes_sleep_traces :
  let out1 := fst (fetch_fitbit_data api_ok insertion_order 1 (Some token) (Some day)) in
  let out2 := fst (fetch_fitbit_data api_ok reverse_order 1 (Some token) (Some day)) in
  valid_order insertion_order /\ valid_order reverse_order /\
  out1 !! 5%nat = Some (OFig (MkFigure [light_trace; deep_trace] (sleep_layout day))) /\
  out2 !! 5%nat = Some (OFig (MkFigure [deep_trace; light_trace] (sleep_layout day))) /\
  out1 <> out2.
Proof.
  cbv zeta. split; [intros l; reflexivity|].
  split; [intros l; symmetry; apply Permutation_rev|].
  split; [vm_compute; reflexivity|]. split; [vm_compute; reflexivity|].
  vm_compute. discriminate.
Qed.

Lemma deterministic_up_to_set_order_witness :
  fetch_fitbit_data api_ok insertion_order 1 (Some token) (Some day)
  = fetch_fitbit_data api_ok_elsewhere insertion_order 1 (Some token) (Some day) /\
  same_but_trace_order
    (fst (fetch_fitbit_data api_ok insertion_order 1 (Some token) (Some day)))
    (fst (fetch_fitbit_data api_ok reverse_order 1 (Some token) (Some day))).
Proof.
  destruct (deterministic_up_to_set_order 1 token day) as [Hsame Horders].
  split.
  - apply Hsame. intros url auth Hin. unfold planned in Hin. cbn [map In] in Hin.
    destruct Hin as [E|[E|[E|[E|[E|[E|[]]]]]]]; injection E as <- <-;
      vm_compute; reflexivity.
  - apply (Horders api_ok insertion_order reverse_order).
    + intros l. reflexivity.
    + intros l. symmetry. apply Permutation_rev.
Defined.

(** C8, the claim as stated fails on a summary that maps a stage to its
    minutes directly: the two answers differ in their summaries only, one
    gives seven outputs and the other the failure tuple. *)
Lemma flat_summary_changes_output :
  without_summaries sleep_body = without_summaries sleep_body_flat_summary /\
  length (fst (fetch_fitbit_data (api_sleep sleep_body) insertion_order 1
                 (Some token) (Some day))) = 7%nat /\
  fetch_fitbit_data (api_sleep sleep_body_flat_summary) insertion_order 1
    (Some token) (Some day)
  = (failure_output,
     [Get (url_heart day) "Bearer tok"; Get (url_steps day) "Bearer tok";
      Get (url_sleep day) "Bearer tok"; PrintError AttributeError]).
Proof.
  repeat split; vm_compute; reflexivity.
Qed.

Lemma summaries_do_not_reach_output_witness :
  without_summaries sleep_body = without_summaries sleep_body_other_minutes /\
  sleep_body <> sleep_body_other_minutes /\
  fetch_fitbit_data (api_sleep sleep_body) insertion_order 1 (Some token) (Some day)
  = fetch_fitbit_data (api_sleep sleep_body_other_minutes) insertion_order 1
      (Some token) (Some day).
Proof.
  split; [vm_compute; reflexivity|]. split; [discriminate|].
  apply (summaries_do_not_reach_output (api_sleep sleep_body)
           (api_sleep sleep_body_other_minutes) insertion_order 1 token day
           sleep_body sleep_body_other_minutes).
  - intros url Hne. unfold api_sleep, api_with.
    destruct (String.eqb_spec url (url_sleep day)) as [->|_]; [contradiction|].
    reflexivity.
  - eexists. repeat split; vm_compute; reflexivity.
  - eexists. repeat split; vm_compute; reflexivity.
  - vm_compute. reflexivity.
  - eexists. vm_compute. reflexivity.
  - eexists. vm_compute. reflexivity.
Defined.

End AppSpec.

(** ** Properties of the logging endpoint *)

Module LoggerSpec.
Import Py Logger Fixture.











End LoggerSpec.

(** ** More properties of the callback *)

Module AppExtra.
Import Py Plotly App Obs Fixture More AppSpec.

Ltac exec_fetch api H :=
  rewrite (bind_fetch api);
  match goal with
  | |- context [Obs.fetched api ?u ?a ?m] => destruct (Obs.fetched api u a m) eqn:H
  end.

Ltac exec_lift H :=
  rewrite bind_lift;
  match goal with
  | |- context [match ?r with inl _ => _ | inr _ => _ end] => destruct r eqn:H
  end.

(** The [try] body ends in one of two ways: an exception after one to six
    requests, or six figures after all six. *)
Lemma pipeline_outcomes api set_order token selected_date :
  let plan := planned token selected_date in
  (exists k e, (0 < k <= 6)%nat /\
     pipeline api set_order token selected_date = (gets (firstn k plan), inl e)) \/
  (exists f1 f2 f3 f4 f5 f6,
     pipeline api set_order token selected_date
     = (gets plan, inr [OFig f1; OFig f2; OFig f3; OFig f4; OFig f5; OFig f6;
                        OBool false])).
Proof.
  cbv zeta.
  cut (forall p, pipeline api set_order token selected_date = p ->
        (exists k e, (0 < k <= 6)%nat /\
           p = (gets (firstn k (planned token selected_date)), inl e)) \/
        (exists f1 f2 f3 f4 f5 f6,
           p = (gets (planned token selected_date),
                inr [OFig f1; OFig f2; OFig f3; OFig f4; OFig f5; OFig f6;
                     OBool false]))).
  { intros H. destruct (H _ eq_refl) as [(k & e & Hk & ->)|(f1 & f2 & f3 & f4 & f5 & f6 & ->)].
    - left. eauto.
    - right. do 6 eexists. reflexivity. }
  intros p. unfold pipeline. cbv zeta.
  exec_fetch api F1; [|exec_lift C1; [|exec_fetch api F2; [|exec_lift C2; [|
  exec_fetch api F3; [|exec_lift C3; [|exec_lift C3'; [|exec_fetch api F4; [|
  exec_lift C4; [|exec_fetch api F5; [|exec_lift C5; [|exec_fetch api F6; [|
  exec_lift C6]]]]]]]]]]]];
  intros <-;
  first
    [ solve [left; exists 1%nat; eexists; split; [lia|reflexivity]]
    | solve [left; exists 2%nat; eexists; split; [lia|reflexivity]]
    | solve [left; exists 3%nat; eexists; split; [lia|reflexivity]]
    | solve [left; exists 4%nat; eexists; split; [lia|reflexivity]]
    | solve [left; exists 5%nat; eexists; split; [lia|reflexivity]]
    | solve [left; exists 6%nat; eexists; split; [lia|reflexivity]]
    | solve [right; do 6 eexists; reflexivity] ].
Qed.

(** X2: the callback ends in one of three ways.  Without a token or a date
    it returns the failure tuple and does nothing else.  Otherwise it either
    sends the first k of the six planned requests, for some k from 1 to 6,
    prints one exception and returns the failure tuple, or it sends all six,
    prints nothing and returns six figures and the flag False. *)
Theorem callback_outcomes api set_order n_clicks token selected_date :
  let result := fetch_fitbit_data api set_order n_clicks token selected_date in
  let plan := planned (default EmptyString token) (default EmptyString selected_date) in
  ((missing token || missing selected_date) = true /\
   result = (failure_output, [])) \/
  ((missing token || missing selected_date) = false /\
   exists k e, (0 < k <= 6)%nat /\
     result = (failure_output, gets (firstn k plan) ++ [PrintError e])) \/
  ((missing token || missing selected_date) = false /\
   exists f1 f2 f3 f4 f5 f6,
     result = ([OFig f1; OFig f2; OFig f3; OFig f4; OFig f5; OFig f6; OBool false],
               gets plan)).
Proof.
  cbv zeta. unfold fetch_fitbit_data.
  destruct token as [t|], selected_date as [d|]; try (left; split; reflexivity).
  - destruct (missing (Some t) || missing (Some d)); [left; split; reflexivity|].
    right. cbn [default].
    destruct (pipeline_outcomes api set_order t d)
      as [(k & e & Hk & ->)|(f1 & f2 & f3 & f4 & f5 & f6 & ->)].
    + left. split; [reflexivity|]. exists k, e. split; [exact Hk|reflexivity].
    + right. split; [reflexivity|]. do 6 eexists. reflexivity.
  - left. split; [|reflexivity]. cbn. apply orb_true_r.
Qed.

Lemma callback_outcomes_witness :
  fetch_fitbit_data (api_heart (Some (MkResponse 503 None))) insertion_order 1
    (Some token) (Some day)
  = (failure_output,
     gets (firstn 1 (planned token day))
     ++ [PrintError (Raised "Heart rate request failed")]) /\
  snd (fetch_fitbit_data api_ok insertion_order 1 (Some token) (Some day))
  = gets (planned token day).
Proof.
  split.
  - destruct (callback_outcomes (api_heart (Some (MkResponse 503 None)))
                insertion_order 1 (Some token) (Some day))
      as [[H _]|[(_ & k & e & _ & _)|(_ & f1 & f2 & f3 & f4 & f5 & f6 & H)]].
    + discriminate H.
    + vm_compute. reflexivity.
    + vm_compute in H. discriminate H.
  - vm_compute. reflexivity.
Defined.

Lemma unanswered_no_answer api url auth :
  unanswered api url auth = true -> forall j, ~ Obs.answers api url auth j.
Proof.
  unfold unanswered. intros H j (r & Hr & Hs & Hb). rewrite Hr, Hs, Hb in H.
  discriminate H.
Qed.

Lemma callback_charts_inv api set_order n_clicks token selected_date out :
  fst (fetch_fitbit_data api set_order n_clicks (Some token) (Some selected_date))
  = out ->
  out <> failure_output ->
  exists evs, pipeline api set_order token selected_date = (evs, inr out).
Proof.
  unfold fetch_fitbit_data.
  destruct (missing (Some token) || missing (Some selected_date));
    [intros <- H; contradiction|].
  destruct (pipeline api set_order token selected_date) as [evs [e|o]];
    cbn [fst]; intros <- H; [contradiction|eauto].
Qed.

(** X1: the callback returns seven values exactly when a token and a date
    are given, each of the six requests is answered with status 200 and a
    JSON body, and each of the six charts can be built from its body.  The
    values are then the figures in the order heart rate, steps, weight, blood
    oxygen, activity, sleep, and the flag False. *)
Theorem callback_charts_iff api set_order n_clicks token selected_date
    fig_hr fig_steps fig_weight fig_spo2 fig_activity fig_sleep flag :
  fst (fetch_fitbit_data api set_order n_clicks (Some token) (Some selected_date))
  = [OFig fig_hr; OFig fig_steps; OFig fig_weight; OFig fig_spo2;
     OFig fig_activity; OFig fig_sleep; OBool flag]
  <->
  (missing (Some token) = false /\ missing (Some selected_date) = false /\
   flag = false /\
   exists hr steps sleep activity weight spo2 st,
     Obs.answers api (url_heart selected_date) ("Bearer " +:+ token) hr /\
     Obs.answers api (url_steps selected_date) ("Bearer " +:+ token) steps /\
     Obs.answers api (url_sleep selected_date) ("Bearer " +:+ token) sleep /\
     Obs.answers api (url_activity selected_date) ("Bearer " +:+ token) activity /\
     Obs.answers api (url_weight selected_date) ("Bearer " +:+ token) weight /\
     Obs.answers api (url_spo2 selected_date) ("Bearer " +:+ token) spo2 /\
     heart_chart selected_date hr = inr fig_hr /\
     steps_chart selected_date steps = inr fig_steps /\
     sleep_reduce sleep = inr st /\
     sleep_chart set_order selected_date (snd st) = inr fig_sleep /\
     activity_chart selected_date activity = inr fig_activity /\
     weight_chart selected_date weight = inr fig_weight /\
     spo2_chart selected_date spo2 = inr fig_spo2).
Proof.
  split.
  - intros Hout.
    assert (Hmissing : (missing (Some token) || missing (Some selected_date)) = false).
    { unfold fetch_fitbit_data in Hout.
      destruct (missing (Some token) || missing (Some selected_date));
        [discriminate Hout|reflexivity]. }
    apply orb_false_elim in Hmissing as [Ht Hd].
    apply callback_charts_inv in Hout as [evs Hp]; [|discriminate].
    apply pipeline_inr in Hp. cbv zeta in Hp.
    destruct Hp as (hr & steps & sleep & activity & weight & spo2 & st & g1 & g2
                    & g6 & g5 & g3 & g4 & A1 & A2 & A3 & A4 & A5 & A6 & C1 & C2
                    & C3 & C3' & C4 & C5 & C6 & Hout & _).
    injection Hout as -> -> -> -> -> -> ->.
    split; [exact Ht|]. split; [exact Hd|]. split; [reflexivity|].
    exists hr, steps, sleep, activity, weight, spo2, st.
    repeat (split; [assumption|]). assumption.
  - intros (Ht & Hd & -> & hr & steps & sleep & activity & weight & spo2 & st
            & A1 & A2 & A3 & A4 & A5 & A6 & C1 & C2 & C3 & C3' & C4 & C5 & C6).
    eapply callback_returns_charts; eassumption.
Qed.

Lemma callback_charts_iff_witness :
  exists fig_hr fig_steps fig_weight fig_spo2 fig_activity fig_sleep,
    fst (fetch_fitbit_data api_ok insertion_order 1 (Some token) (Some day))
    = [OFig fig_hr; OFig fig_steps; OFig fig_weight; OFig fig_spo2;
       OFig fig_activity; OFig fig_sleep; OBool false] /\
    heart_chart day hr_body = inr fig_hr /\
    spo2_chart day spo2_body = inr fig_spo2.
Proof.
  do 6 eexists. split; [|split].
  - apply (callback_charts_iff api_ok insertion_order 1 token day).
    split; [reflexivity|]. split; [reflexivity|]. split; [reflexivity|].
    exists hr_body, steps_body, sleep_body, activity_body, weight_body, spo2_body.
    eexists.
    repeat (split; [first [ eexists; repeat split; vm_compute; reflexivity
                          | vm_compute; reflexivity ]|]).
    vm_compute. reflexivity.
  - vm_compute. reflexivity.
  - vm_compute. reflexivity.
Defined.

(** X3: a planned request that does not end in a parsed body, because
    [requests.get] raises, the status is not 200 or the body is not JSON,
    leaves the callback with its failure tuple, whatever the other requests
    return, and the exception printed is the last thing it does. *)
Theorem unanswered_request_fails_callback api set_order n_clicks token
    selected_date url :
  missing (Some token) = false -> missing (Some selected_date) = false ->
  In (url, "Bearer " +:+ token) (planned token selected_date) ->
  unanswered api url ("Bearer " +:+ token) = true ->
  exists evs e,
    fetch_fitbit_data api set_order n_clicks (Some token) (Some selected_date)
    = (failure_output, evs ++ [PrintError e]).
Proof.
  intros Ht Hd Hin Hun. unfold fetch_fitbit_data. rewrite Ht, Hd. cbn [orb].
  destruct (pipeline api set_order token selected_date) as [evs [e|out]] eqn:Hp;
    [eauto|].
  exfalso. apply pipeline_inr in Hp. cbv zeta in Hp.
  destruct Hp as (hr & steps & sleep & activity & weight & spo2 & st & f1 & f2
                  & f3 & f4 & f5 & f6 & A1 & A2 & A3 & A4 & A5 & A6 & _).
  pose proof (unanswered_no_answer _ _ _ Hun) as Hno.
  unfold planned in Hin. cbn [map In] in Hin.
  destruct Hin as [E|[E|[E|[E|[E|[E|[]]]]]]]; injection E as <-;
    eapply Hno; eassumption.
Qed.

Lemma unanswered_request_fails_callback_witness :
  unanswered (api_spo2 (Some (MkResponse 200 None))) (url_spo2 day) "Bearer tok" = true /\
  unanswered (api_spo2 None) (url_spo2 day) "Bearer tok" = true /\
  exists evs e,
    fetch_fitbit_data (api_spo2 (Some (MkResponse 200 None))) insertion_order 1
      (Some token) (Some day)
    = (failure_output, evs ++ [PrintError e]).
Proof.
  split; [vm_compute; reflexivity|]. split; [vm_compute; reflexivity|].
  apply (unanswered_request_fails_callback (api_spo2 (Some (MkResponse 200 None)))
           insertion_order 1 token day (url_spo2 day)).
  - reflexivity.
  - reflexivity.
  - unfold planned. cbn [map In]. do 5 right. left. reflexivity.
  - vm_compute. reflexivity.
Defined.

(** X4: when the heart-rate answer holds an empty (or otherwise falsy)
    dataset, the callback sends no further request: it prints the
    UnboundLocalError of line 105 and returns the failure tuple, whatever the
    other five metrics hold. *)
Theorem falsy_heart_series_stops_callback api set_order n_clicks token
    selected_date hr series :
  missing (Some token) = false -> missing (Some selected_date) = false ->
  Obs.answers api (url_heart selected_date) ("Bearer " +:+ token) hr ->
  heart_series hr = inr series ->
  truthy series = false ->
  fetch_fitbit_data api set_order n_clicks (Some token) (Some selected_date)
  = (failure_output,
     [Get (url_heart selected_date) ("Bearer " +:+ token);
      PrintError (UnboundLocalError "fig_hr")]).
Proof.
  intros Ht Hd Hans Hseries Hfalsy. unfold fetch_fitbit_data.
  rewrite Ht, Hd. cbn [orb]. unfold pipeline. cbv zeta.
  rewrite (bind_fetch api), (answers_fetched _ _ _ _ _ Hans), bind_lift.
  unfold heart_series in Hseries.
  apply rbind_inr in Hseries as (intraday & Hintraday & Hdataset).
  unfold heart_chart. rewrite Hintraday. cbn [rbind]. rewrite Hdataset.
  cbn [rbind]. rewrite Hfalsy. reflexivity.
Qed.

Lemma falsy_heart_series_stops_callback_witness :
  heart_series (intraday "activities-heart-intraday" []) = inr (JList []) /\
  fetch_fitbit_data (api_heart (ok (intraday "activities-heart-intraday" [])))
    insertion_order 1 (Some token) (Some day)
  = (failure_output,
     [Get (url_heart day) ("Bearer " +:+ token);
      PrintError (UnboundLocalError "fig_hr")]).
Proof.
  split; [reflexivity|].
  apply (falsy_heart_series_stops_callback
           (api_heart (ok (intraday "activities-heart-intraday" [])))
           insertion_order 1 token day
           (intraday "activities-heart-intraday" []) (JList [])).
  - reflexivity.
  - reflexivity.
  - eexists. repeat split; vm_compute; reflexivity.
  - reflexivity.
  - reflexivity.
Defined.

(** X5: when the activity answer has no summary, or one that is empty (or
    otherwise falsy), the callback returns the failure tuple, whatever the
    other five metrics hold: line 200 updates a figure that was never
    created. *)
Theorem falsy_activity_summary_fails_callback api set_order n_clicks token
    selected_date activity summary :
  Obs.answers api (url_activity selected_date) ("Bearer " +:+ token) activity ->
  get activity "summary" (JObj []) = inr summary ->
  truthy summary = false ->
  fst (fetch_fitbit_data api set_order n_clicks (Some token) (Some selected_date))
  = failure_output.
Proof.
  intros Hans Hsummary Hfalsy. unfold fetch_fitbit_data.
  destruct (missing (Some token) || missing (Some selected_date)); [reflexivity|].
  destruct (pipeline api set_order token selected_date) as [evs [e|out]] eqn:Hp;
    [reflexivity|].
  exfalso. apply pipeline_inr in Hp. cbv zeta in Hp.
  destruct Hp as (hr & steps & sleep & act & weight & spo2 & st & f1 & f2
                  & f3 & f4 & f5 & f6 & _ & _ & _ & A4 & _ & _ & _ & _ & _ & _
                  & C4 & _).
  rewrite (answers_functional _ _ _ _ _ A4 Hans) in C4.
  unfold activity_chart in C4. rewrite Hsummary in C4. cbn [rbind] in C4.
  rewrite Hfalsy in C4. discriminate C4.
Qed.

Lemma falsy_activity_summary_fails_callback_witness :
  get (JObj [("activities", JList [])]) "summary" (JObj []) = inr (JObj []) /\
  fst (fetch_fitbit_data (api_activity (ok (JObj [("activities", JList [])])))
         insertion_order 1 (Some token) (Some day))
  = failure_output.
Proof.
  split; [reflexivity|].
  apply (falsy_activity_summary_fails_callback
           (api_activity (ok (JObj [("activities", JList [])])))
           insertion_order 1 token day (JObj [("activities", JList [])]) (JObj [])).
  - eexists. repeat split; vm_compute; reflexivity.
  - reflexivity.
  - reflexivity.
Defined.

(** *** The line charts *)

Lemma rmap_inr_iff {A B} (f : A -> res B) l ys :
  rmap f l = inr ys <-> Forall2 (fun x y => f x = inr y) l ys.
Proof.
  revert ys. induction l as [|x l IH]; intros ys; cbn [rmap].
  - split; [intros [= <-]; constructor|intros H; inversion H; reflexivity].
  - split.
    + intros H. apply rbind_inr in H as (y & Hy & H).
      apply rbind_inr in H as (ys' & Hys & H). injection H as <-.
      constructor; [exact Hy|]. apply IH. exact Hys.
    + intros H. inversion H as [|x' y l' ys' Hy Hys]; subst.
      rewrite Hy. cbn [rbind]. apply IH in Hys. rewrite Hys. reflexivity.
Qed.

Lemma column_list k pts xs :
  column k (JList pts) = inr xs <-> Forall2 (fun p x => getitem p k = inr x) pts xs.
Proof. unfold column. cbn [iter rbind]. apply rmap_inr_iff. Qed.

Lemma line_figure_list pts xs ys name title xt yt :
  Forall2 (fun p x => getitem p "time" = inr x) pts xs ->
  Forall2 (fun p y => getitem p "value" = inr y) pts ys ->
  line_figure (JList pts) name title xt yt
  = inr (MkFigure [Scatter xs ys "lines" (JStr name) None]
           (Layout (Some title) (Some xt) (Some yt) None)).
Proof.
  intros Hx Hy. unfold line_figure.
  apply column_list in Hx, Hy. rewrite Hx, Hy. reflexivity.
Qed.

(** X6: a dataset that is a non-empty list of points, each with a time and a
    value, is plotted as one line trace whose x values are the times and
    whose y values are the values, point by point in the order of the
    dataset; this holds for the heart rate, the steps, the weight and the
    blood oxygen alike. *)
Theorem line_charts_plot_the_series selected_date pts xs ys :
  pts <> [] ->
  Forall2 (fun p x => getitem p "time" = inr x) pts xs ->
  Forall2 (fun p y => getitem p "value" = inr y) pts ys ->
  (length xs = length pts /\ length ys = length pts) /\
  (forall hr, heart_series hr = inr (JList pts) ->
     heart_chart selected_date hr
     = inr (line_chart xs ys "Heart Rate" ("Heart Rate on " +:+ selected_date) "BPM")) /\
  (forall body,
     guarded_series "activities-steps-intraday" body = inr (JList pts) ->
     steps_chart selected_date body
     = inr (line_chart xs ys "Steps" ("Steps on " +:+ selected_date)
              "Steps per Minute")) /\
  (forall body,
     guarded_series "weight-intraday" body = inr (JList pts) ->
     weight_chart selected_date body
     = inr (line_chart xs ys "Weight" ("weight on " +:+ selected_date) "Weight")) /\
  (forall body,
     guarded_series "spo2-intraday" body = inr (JList pts) ->
     spo2_chart selected_date body
     = inr (line_chart xs ys "SPO2" ("SPO2 on " +:+ selected_date)
              "spo2 per Minute")).
Proof.
  intros Hne Hx Hy.
  assert (Htruthy : truthy (JList pts) = true).
  { destruct pts; [contradiction|reflexivity]. }
  split.
  { split; symmetry; eapply Forall2_length; eassumption. }
  split; [|repeat split].
  - intros hr H. unfold heart_series in H.
    apply rbind_inr in H as (intraday & Hintraday & Hdataset).
    unfold heart_chart. rewrite Hintraday. cbn [rbind]. rewrite Hdataset.
    cbn [rbind]. rewrite Htruthy. apply line_figure_list; assumption.
  - intros body H. unfold steps_chart. rewrite H. cbn [rbind].
    rewrite Htruthy. apply line_figure_list; assumption.
  - intros body H. unfold weight_chart. rewrite H. cbn [rbind].
    rewrite Htruthy. apply line_figure_list; assumption.
  - intros body H. unfold spo2_chart. rewrite H. cbn [rbind].
    rewrite Htruthy. apply line_figure_list; assumption.
Qed.

Lemma line_charts_plot_the_series_witness :
  heart_chart day hr_body
  = inr (line_chart [JStr "00:00:00"; JStr "00:01:00"] [JInt 61; JInt 63]
           "Heart Rate" "Heart Rate on 2025-06-01" "BPM") /\
  steps_chart day (intraday "activities-steps-intraday" two_points)
  = inr (line_chart [JStr "00:00:00"; JStr "00:01:00"] [JInt 61; JInt 63]
           "Steps" "Steps on 2025-06-01" "Steps per Minute").
Proof.
  assert (Hne : two_points <> []) by discriminate.
  assert (Hx : Forall2 (fun p x => getitem p "time" = inr x) two_points
                 [JStr "00:00:00"; JStr "00:01:00"]).
  { repeat constructor. }
  assert (Hy : Forall2 (fun p y => getitem p "value" = inr y) two_points
                 [JInt 61; JInt 63]).
  { repeat constructor. }
  destruct (line_charts_plot_the_series day two_points _ _ Hne Hx Hy)
    as (_ & Hheart & Hsteps & _).
  split.
  - apply (Hheart hr_body). reflexivity.
  - apply (Hsteps (intraday "activities-steps-intraday" two_points)). reflexivity.
Defined.

Lemma Forall2_In_left {A B} (R : A -> B -> Prop) l k x :
  Forall2 R l k -> In x l -> exists y, R x y.
Proof.
  intros H. induction H as [|a b l k Hab _ IH]; intros Hin; [destruct Hin|].
  destruct Hin as [<-|Hin]; [eauto|apply IH, Hin].
Qed.

Lemma line_figure_needs_both pts p name title xt yt fig :
  In p pts ->
  line_figure (JList pts) name title xt yt = inr fig ->
  (exists x, getitem p "time" = inr x) /\ (exists y, getitem p "value" = inr y).
Proof.
  intros Hin H. unfold line_figure in H.
  apply rbind_inr in H as (xs & Hxs & H). apply rbind_inr in H as (ys & Hys & _).
  apply column_list in Hxs, Hys.
  split.
  - exact (Forall2_In_left _ _ _ _ Hxs Hin).
  - exact (Forall2_In_left _ _ _ _ Hys Hin).
Qed.

(** X7: one point of the dataset that is not an object with both a time and
    a value is enough for the chart of the metric not to be built, wherever
    the point stands in the dataset and however many good points surround
    it. *)
Theorem malformed_point_fails_the_chart selected_date pts p :
  In p pts ->
  (forall x, getitem p "time" <> inr x) \/ (forall y, getitem p "value" <> inr y) ->
  (forall hr fig, heart_series hr = inr (JList pts) ->
     heart_chart selected_date hr <> inr fig) /\
  (forall body fig,
     guarded_series "activities-steps-intraday" body = inr (JList pts) ->
     steps_chart selected_date body <> inr fig) /\
  (forall body fig,
     guarded_series "weight-intraday" body = inr (JList pts) ->
     weight_chart selected_date body <> inr fig) /\
  (forall body fig,
     guarded_series "spo2-intraday" body = inr (JList pts) ->
     spo2_chart selected_date body <> inr fig).
Proof.
  intros Hin Hbad.
  assert (Htruthy : truthy (JList pts) = true).
  { destruct pts; [destruct Hin|reflexivity]. }
  assert (Hline : forall name title xt yt fig,
             line_figure (JList pts) name title xt yt <> inr fig).
  { intros name title xt yt fig H.
    destruct (line_figure_needs_both _ _ _ _ _ _ _ Hin H) as [[x Hx] [y Hy]].
    destruct Hbad as [Hbad|Hbad]; [exact (Hbad _ Hx)|exact (Hbad _ Hy)]. }
  split; [|repeat split].
  - intros hr fig H. unfold heart_series in H.
    apply rbind_inr in H as (intraday & Hintraday & Hdataset).
    unfold heart_chart. rewrite Hintraday. cbn [rbind]. rewrite Hdataset.
    cbn [rbind]. rewrite Htruthy. apply Hline.
  - intros body fig H. unfold steps_chart. rewrite H. cbn [rbind].
    rewrite Htruthy. apply Hline.
  - intros body fig H. unfold weight_chart. rewrite H. cbn [rbind].
    rewrite Htruthy. apply Hline.
  - intros body fig H. unfold spo2_chart. rewrite H. cbn [rbind].
    rewrite Htruthy. apply Hline.
Qed.

Lemma malformed_point_fails_the_chart_witness :
  let pts := [point "00:00:00" 61; JObj [("time", JStr "00:01:00")];
              point "00:02:00" 64] in
  heart_chart day (intraday "activities-heart-intraday" pts) = inl (KeyError "value") /\
  forall fig, heart_chart day (intraday "activities-heart-intraday" pts) <> inr fig.
Proof.
  cbv zeta. split; [vm_compute; reflexivity|].
  intros fig.
  refine (proj1 (malformed_point_fails_the_chart day
                   [point "00:00:00" 61; JObj [("time", JStr "00:01:00")];
                    point "00:02:00" 64]
                   (JObj [("time", JStr "00:01:00")]) _ _) _ fig _).
  - right. left. reflexivity.
  - right. intros y. discriminate.
  - reflexivity.
Defined.

(** *** The guarded metrics *)

(** X8: the guard of lines 113, 208 and 227 covers the top-level key only.
    A body that has the key with an object under it that lacks [dataset]
    raises KeyError, so the chart is not built. *)
Theorem missing_dataset_raises selected_date kvs inner :
  dict_get "dataset" inner = None ->
  (dict_get "activities-steps-intraday" kvs = Some (JObj inner) ->
   steps_chart selected_date (JObj kvs) = inl (KeyError "dataset")) /\
  (dict_get "weight-intraday" kvs = Some (JObj inner) ->
   weight_chart selected_date (JObj kvs) = inl (KeyError "dataset")) /\
  (dict_get "spo2-intraday" kvs = Some (JObj inner) ->
   spo2_chart selected_date (JObj kvs) = inl (KeyError "dataset")).
Proof.
  intros Hinner.
  repeat split; intros Hkey;
    unfold steps_chart, weight_chart, spo2_chart, guarded_series, contains, getitem;
    rewrite Hkey; cbn [rbind]; rewrite ?Hkey; cbn [rbind]; rewrite ?Hinner;
    reflexivity.
Qed.

Lemma missing_dataset_raises_witness :
  steps_chart day (JObj [("activities-steps-intraday", JObj [])])
  = inl (KeyError "dataset") /\
  fetch_fitbit_data
    (api_spo2 (ok (JObj [("spo2-intraday", JObj [("minutes", JList [])])])))
    insertion_order 1 (Some token) (Some day)
  = (failure_output,
     gets (planned token day) ++ [PrintError (KeyError "dataset")]).
Proof.
  split.
  - apply (missing_dataset_raises day [("activities-steps-intraday", JObj [])] []);
      reflexivity.
  - vm_compute. reflexivity.
Defined.

(** X9: what the guarded charts do with a body that is not an object.  The
    test [key in body] decides: a list that does not hold the key as one of
    its elements, or a string that does not contain it, counts as no data;
    [null], a boolean or a number raises TypeError; and a list or a string
    that does hold the key raises TypeError at the subscript. *)
Theorem non_object_body selected_date :
  (forall l, existsb (str_eq "activities-steps-intraday") l = false ->
     steps_chart selected_date (JList l)
     = inr (no_data_figure "No Steps Data Available")) /\
  (forall s, is_substring "activities-steps-intraday" s = false ->
     steps_chart selected_date (JStr s)
     = inr (no_data_figure "No Steps Data Available")) /\
  (forall l, existsb (str_eq "activities-steps-intraday") l = true ->
     steps_chart selected_date (JList l) = inl TypeError) /\
  (forall s, is_substring "activities-steps-intraday" s = true ->
     steps_chart selected_date (JStr s) = inl TypeError) /\
  steps_chart selected_date JNull = inl TypeError /\
  (forall b, steps_chart selected_date (JBool b) = inl TypeError) /\
  (forall z, steps_chart selected_date (JInt z) = inl TypeError).
Proof.
  repeat split; try (intros x H); try intros x;
    unfold steps_chart, guarded_series, contains; try rewrite H; reflexivity.
Qed.

Lemma non_object_body_witness :
  steps_chart day (JList []) = inr (no_data_figure "No Steps Data Available") /\
  steps_chart day (JList [JStr "activities-steps-intraday"]) = inl TypeError /\
  steps_chart day (JStr "activities-steps-intraday-v2") = inl TypeError.
Proof.
  destruct (non_object_body day) as (Hlist & _ & Hheld & Hsub & _).
  split; [apply Hlist; reflexivity|].
  split; [apply Hheld; reflexivity|].
  apply Hsub. reflexivity.
Defined.

(** *** Sleep *)

Lemma rfold_not_main records st :
  Forall not_main records -> rfold sleep_record st records = inr st.
Proof.
  intros H. induction H as [|r records Hr _ IH]; [reflexivity|].
  cbn [rfold]. rewrite (not_main_skipped _ _ Hr). exact IH.
Qed.

(** X10: a sleep answer none of whose records is a main sleep, for instance
    a day with naps only or no [sleep] key at all, is charted as the
    no-data figure, whatever the records hold; the minutes stay 0. *)
Theorem no_main_sleep_is_no_data set_order selected_date sleep_data records :
  get sleep_data "sleep" (JList []) = inr (JList records) ->
  Forall not_main records ->
  sleep_reduce sleep_data = inr (initial_sleep_stages, []) /\
  (st <~ sleep_reduce sleep_data; sleep_chart set_order selected_date (snd st))
  = inr (no_data_figure "No Sleep Data Available").
Proof.
  intros Hget Hall.
  assert (H : sleep_reduce sleep_data = inr (initial_sleep_stages, [])).
  { unfold sleep_reduce. rewrite Hget. cbn [rbind iter].
    apply rfold_not_main, Hall. }
  split; [exact H|]. rewrite H. reflexivity.
Qed.

Lemma no_main_sleep_is_no_data_witness :
  Forall not_main [nap; nap] /\
  sleep_reduce only_naps = inr (initial_sleep_stages, []) /\
  (st <~ sleep_reduce (JObj []); sleep_chart insertion_order day (snd st))
  = inr (no_data_figure "No Sleep Data Available").
Proof.
  assert (Hnap : not_main nap) by (exists (JBool false); split; reflexivity).
  split; [repeat constructor; exact Hnap|]. split.
  - apply (no_main_sleep_is_no_data insertion_order day only_naps [nap; nap]).
    + reflexivity.
    + repeat constructor; exact Hnap.
  - apply (no_main_sleep_is_no_data insertion_order day (JObj []) []).
    + reflexivity.
    + constructor.
Defined.














Lemma rmap_In {A B} (f : A -> res B) l ys x :
  rmap f l = inr ys -> In x l -> exists y, f x = inr y.
Proof.
  intros H Hin. apply rmap_inr_iff in H.
  exact (Forall2_In_left _ _ _ _ H Hin).
Qed.

(** X13: a point of a main sleep record that is not an object with both a
    [dateTime] and a [level] makes the whole reduction raise, so no sleep
    chart is built, however many good points and records come with it. *)
Theorem malformed_sleep_point_fails sleep_data records record levels points pt :
  get sleep_data "sleep" (JList []) = inr (JList records) ->
  In record records ->
  is_main record = true ->
  get record "levels" (JObj []) = inr levels ->
  get levels "data" (JList []) = inr (JList points) ->
  In pt points ->
  (forall t, getitem pt "dateTime" <> inr t) \/
  (forall l, getitem pt "level" <> inr l) ->
  forall st, sleep_reduce sleep_data <> inr st.
Proof.
  intros Hget Hrec Hmain Hlevels Hdata Hpt Hbad [stages series] H.
  unfold sleep_reduce in H. rewrite Hget in H. cbn [rbind iter] in H.
  apply sleep_loop in H as (cs & Hcs & _); [|reflexivity].
  assert (Hin : In record (List.filter is_main records)).
  { apply filter_In. split; assumption. }
  destruct (rmap_In _ _ _ _ Hcs Hin) as ([st pts] & Hc).
  unfold contribution in Hc.
  apply rbind_inr in Hc as (st' & _ & Hc).
  apply rbind_inr in Hc as (pts' & Hpts & _).
  unfold record_points in Hpts. rewrite Hlevels in Hpts. cbn [rbind] in Hpts.
  rewrite Hdata in Hpts. cbn [rbind iter] in Hpts.
  destruct (rmap_In _ _ _ _ Hpts Hpt) as ([t l] & Hpoint).
  unfold sleep_point in Hpoint.
  apply rbind_inr in Hpoint as (t' & Ht & Hpoint).
  apply rbind_inr in Hpoint as (l' & Hl & _).
  destruct Hbad as [Hbad|Hbad]; [exact (Hbad _ Ht)|exact (Hbad _ Hl)].
Qed.

Lemma malformed_sleep_point_fails_witness :
  let bad := JObj [("dateTime", JStr "2025-06-01T03:00:00")] in
  let record := sleep_rec true (JObj []) (night_points ++ [bad]) in
  let sleep_data := JObj [("sleep", JList [nap; record])] in
  sleep_reduce sleep_data = inl (KeyError "level") /\
  forall st, sleep_reduce sleep_data <> inr st.
Proof.
  cbv zeta. split; [vm_compute; reflexivity|].
  refine (malformed_sleep_point_fails _
            [nap; sleep_rec true (JObj [])
                    (night_points ++ [JObj [("dateTime", JStr "2025-06-01T03:00:00")]])]
            (sleep_rec true (JObj [])
               (night_points ++ [JObj [("dateTime", JStr "2025-06-01T03:00:00")]]))
            (JObj [("summary", JObj []);
                   ("data", JList (night_points
                                   ++ [JObj [("dateTime", JStr "2025-06-01T03:00:00")]]))])
            (night_points ++ [JObj [("dateTime", JStr "2025-06-01T03:00:00")]])
            (JObj [("dateTime", JStr "2025-06-01T03:00:00")])
            _ _ _ _ _ _ _).
  - reflexivity.
  - right. left. reflexivity.
  - reflexivity.
  - reflexivity.
  - reflexivity.
  - cbn. tauto.
  - right. intros l. discriminate.
Defined.

End AppExtra.

(** ** More properties of the logging endpoint *)

Module LoggerExtra.
Import Py Logger Fixture More.






End LoggerExtra.
